(** * thyraNew: the SSH admission layer ([server/server.go])

    A shallow embedding of [server.go]: the resize decoder [parseDims],
    the name filter of [handle] (regexp [\W] over UTF-8 text, then
    the rune-wise cut to [maxlen]), the channel operations the handler
    relies on, and the per-connection handler [handle] itself with its
    two helper goroutines (the channel rejecter and the request
    dispatcher).

    Conventions.
    - A Go [string] is a sequence of bytes: Rocq's [string] (8-bit
      [ascii] cells).  A [[]byte] is a [list byte].
    - Unsigned machine integers are [Z] with the wrap-around written out.
    - A run-time panic is a value ([Panic]), never a missing case.
    - A Go channel is [Chan]: [NilChan] for the nil channel, otherwise
      the values still to be received and whether the sender closed it. *)

From Stdlib Require Import ZArith Zbitwise Lia Ascii String Strings.Byte List.
From stdpp Require Import base gmap strings list pretty.

Local Open Scope string_scope.
Local Open Scope list_scope.

(** ** Panics *)

(** The result of running Go code that can panic. *)
Inductive go (A : Type) : Type :=
| Ok (a : A)
| Panic (msg : string).
Arguments Ok {A} a.
Arguments Panic {A} msg.

Definition go_bind {A B : Type} (m : go A) (k : A -> go B) : go B :=
  match m with
  | Ok a => k a
  | Panic msg => Panic msg
  end.

Notation "x <-! m ; k" := (go_bind m (fun x => k))
  (at level 100, m at next level, right associativity,
   format "x  <-!  m ;  '/' k").

Definition index_out_of_range : string := "index out of range".
Definition slice_out_of_range : string := "slice bounds out of range".
Definition nil_dereference : string :=
  "invalid memory address or nil pointer dereference".
Definition send_on_closed : string := "send on closed channel".

(** ** Bytes and slices *)

Definition byte_val (b : byte) : Z := Z.of_N (Byte.to_N b).

(** [b[i]]: indexing a byte slice panics out of range. *)
Definition index (b : list byte) (i : nat) : go byte :=
  match nth_error b i with
  | Some x => Ok x
  | None => Panic index_out_of_range
  end.

(** [b[i:]]: the low bound may equal the length, not exceed it. *)
Definition slice_from (b : list byte) (i : nat) : go (list byte) :=
  if Nat.leb i (List.length b) then Ok (skipn i b) else Panic slice_out_of_range.

(** [binary.BigEndian.Uint32]: reads [b[0..3]], with the bounds check
    [_ = b[3]] of the library. *)
Definition Uint32 (b : list byte) : go Z :=
  match b with
  | b0 :: b1 :: b2 :: b3 :: _ =>
      Ok (Z.lor (Z.lor (Z.lor (byte_val b3)
                              (Z.shiftl (byte_val b2) 8))
                       (Z.shiftl (byte_val b1) 16))
                (Z.shiftl (byte_val b0) 24))
  | _ => Panic index_out_of_range
  end.

(** ** [parseDims] *)

(** The [resize] struct is declared in another file of the package; its
    two fields are the [uint32] values that [parseDims] stores. *)
Record resize : Type := { width : Z; height : Z }.

Definition parseDims (b : list byte) : go resize :=
  if Nat.ltb (List.length b) 8 then
    Ok {| width := 0; height := 0 |}
  else
    w <-! Uint32 b;
    b4 <-! slice_from b 4;
    h <-! Uint32 b4;
    Ok {| width := w; height := h |}.

(** ** UTF-8, as [unicode/utf8] decodes and encodes it *)

Definition code (a : ascii) : Z := Z.of_N (N_of_ascii a).

Definition RuneError : Z := 0xFFFD.
Definition MaxRune : Z := 0x10FFFF.

Definition in_range (lo hi x : Z) : bool := Z.leb lo x && Z.leb x hi.

(** The [first] table of the library: for a leading byte, the size of the
    sequence and the accepted range of the second byte; [None] for a byte
    that cannot start a multi-byte sequence (ASCII is tested before). *)
Definition first_info (s0 : Z) : option (nat * (Z * Z)) :=
  if in_range 0xC2 0xDF s0 then Some (2%nat, (0x80, 0xBF)%Z)
  else if Z.eqb s0 0xE0 then Some (3%nat, (0xA0, 0xBF)%Z)
  else if in_range 0xE1 0xEC s0 then Some (3%nat, (0x80, 0xBF)%Z)
  else if Z.eqb s0 0xED then Some (3%nat, (0x80, 0x9F)%Z)
  else if in_range 0xEE 0xEF s0 then Some (3%nat, (0x80, 0xBF)%Z)
  else if Z.eqb s0 0xF0 then Some (4%nat, (0x90, 0xBF)%Z)
  else if in_range 0xF1 0xF3 s0 then Some (4%nat, (0x80, 0xBF)%Z)
  else if Z.eqb s0 0xF4 then Some (4%nat, (0x80, 0x8F)%Z)
  else None.

Definition cont (x : Z) : bool := in_range 0x80 0xBF x.

(** [utf8.DecodeRuneInString]: the rune at the head of [s] and its width
    in bytes; an invalid or truncated sequence is [(RuneError, 1)]. *)
Definition DecodeRuneInString (s : string) : Z * nat :=
  match s with
  | EmptyString => (RuneError, 0%nat)
  | String a0 t0 =>
      let s0 := code a0 in
      if Z.ltb s0 0x80 then (s0, 1%nat)
      else
        match first_info s0 with
        | None => (RuneError, 1%nat)
        | Some (sz, (lo, hi)) =>
            match t0 with
            | EmptyString => (RuneError, 1%nat)
            | String a1 t1 =>
                let s1 := code a1 in
                if negb (in_range lo hi s1) then (RuneError, 1%nat)
                else if Nat.leb sz 2 then
                  (Z.lor (Z.shiftl (Z.land s0 0x1F) 6) (Z.land s1 0x3F), 2%nat)
                else
                  match t1 with
                  | EmptyString => (RuneError, 1%nat)
                  | String a2 t2 =>
                      let s2 := code a2 in
                      if negb (cont s2) then (RuneError, 1%nat)
                      else if Nat.leb sz 3 then
                        (Z.lor (Z.lor (Z.shiftl (Z.land s0 0x0F) 12)
                                      (Z.shiftl (Z.land s1 0x3F) 6))
                               (Z.land s2 0x3F), 3%nat)
                      else
                        match t2 with
                        | EmptyString => (RuneError, 1%nat)
                        | String a3 _ =>
                            let s3 := code a3 in
                            if negb (cont s3) then (RuneError, 1%nat)
                            else
                              (Z.lor (Z.lor (Z.lor (Z.shiftl (Z.land s0 0x07) 18)
                                                   (Z.shiftl (Z.land s1 0x3F) 12))
                                            (Z.shiftl (Z.land s2 0x3F) 6))
                                     (Z.land s3 0x3F), 4%nat)
                        end
                  end
            end
        end
  end.

(** [[]rune(s)]: the runes of [s] in order.  [skip] counts the bytes of
    the current rune that are still to be stepped over. *)
Fixpoint runes_from (skip : nat) (s : string) : list Z :=
  match s with
  | EmptyString => []
  | String _ t =>
      match skip with
      | S k => runes_from k t
      | O =>
          let '(r, w) := DecodeRuneInString s in
          r :: runes_from (Nat.pred w) t
      end
  end.

Definition runes (s : string) : list Z := runes_from 0 s.

(** [utf8.RuneCountInString]. *)
Definition RuneCountInString (s : string) : nat := List.length (runes s).

Definition chr (x : Z) : ascii := ascii_of_N (Z.to_N (x mod 256)).

(** [utf8.EncodeRune] / [string(rune)]: surrogates and values outside
    Unicode are written as [RuneError]. *)
Definition enc3 (r : Z) : string :=
  String (chr (Z.lor 0xE0 (Z.shiftr r 12)))
    (String (chr (Z.lor 0x80 (Z.land (Z.shiftr r 6) 0x3F)))
       (String (chr (Z.lor 0x80 (Z.land r 0x3F))) EmptyString)).

Definition encoderune (r : Z) : string :=
  if in_range 0 0x7F r then String (chr r) EmptyString
  else if in_range 0 0x7FF r then
    String (chr (Z.lor 0xC0 (Z.shiftr r 6)))
      (String (chr (Z.lor 0x80 (Z.land r 0x3F))) EmptyString)
  else if negb (in_range 0 MaxRune r) || in_range 0xD800 0xDFFF r then
    enc3 RuneError
  else if in_range 0 0xFFFF r then enc3 r
  else
    String (chr (Z.lor 0xF0 (Z.shiftr r 18)))
      (String (chr (Z.lor 0x80 (Z.land (Z.shiftr r 12) 0x3F)))
         (String (chr (Z.lor 0x80 (Z.land (Z.shiftr r 6) 0x3F)))
            (String (chr (Z.lor 0x80 (Z.land r 0x3F))) EmptyString))).

(** [string(rs)] for a rune slice. *)
Fixpoint string_of_runes (rs : list Z) : string :=
  match rs with
  | [] => EmptyString
  | r :: rs' => encoderune r +:+ string_of_runes rs'
  end.

(** ** The name filter *)

(** Perl class [\w] of Go's regexp syntax: ASCII only, [[0-9A-Za-z_]]. *)
Definition is_word (r : Z) : bool :=
  in_range 0x30 0x39 r || in_range 0x41 0x5A r || in_range 0x61 0x7A r
  || Z.eqb r 0x5F.

(** [filtername.ReplaceAllString(s, "")] with [filtername = \W]: every
    match is one rune, so the result is [s] without the bytes of the runes
    that are not word runes.  [keep] tells whether the bytes of the rune
    being stepped over are copied, [skip] how many of them remain. *)
Fixpoint replace_from (keep : bool) (skip : nat) (s : string) : string :=
  match s with
  | EmptyString => EmptyString
  | String a t =>
      match skip with
      | S k =>
          if keep then String a (replace_from keep k t) else replace_from keep k t
      | O =>
          let '(r, w) := DecodeRuneInString s in
          let keep' := is_word r in
          if keep' then String a (replace_from keep' (Nat.pred w) t)
          else replace_from keep' (Nat.pred w) t
      end
  end.

Definition filtername_ReplaceAllString (s : string) : string :=
  replace_from false 0 s.

Definition maxlen : nat := 100.

(** [rs[:n]] on the slice that [[]rune(name)] allocates.  The language
    leaves the capacity of that slice open; the model takes the least one
    (its length), so it panics wherever some implementation may. *)
Definition slice_to (rs : list Z) (n : nat) : go (list Z) :=
  if Nat.leb n (List.length rs) then Ok (firstn n rs) else Panic slice_out_of_range.

(** Lines 103-108 of [handle]. *)
Definition sanitize (sshName : string) : go string :=
  let name := filtername_ReplaceAllString sshName in
  if Nat.ltb maxlen (String.length name) then
    rs <-! slice_to (runes name) maxlen;
    Ok (string_of_runes rs)
  else Ok name.

(** ** Channels *)

(** A channel as one goroutine sees it.  For a channel the code receives
    from, [pending] lists the values the other side sends from now on, in
    order, and [closed] tells whether it closes the channel after them.
    For a channel the code sends on, [pending] lists the values handed to
    the receiver so far. *)
Inductive Chan (A : Type) : Type :=
| NilChan
| MkChan (pending : list A) (closed : bool).
Arguments NilChan {A}.
Arguments MkChan {A} pending closed.

Inductive recv_result (A : Type) : Type :=
| Recv (v : A) (c' : Chan A)   (* a value arrives *)
| RecvClosed                  (* closed and drained: the zero value, at once *)
| RecvBlocks.                 (* nothing will ever arrive *)
Arguments Recv {A} v c'.
Arguments RecvClosed {A}.
Arguments RecvBlocks {A}.

(** [<-c].  In a [select] with a [default] case, [RecvBlocks] is the case
    in which [default] runs. *)
Definition chan_recv {A : Type} (c : Chan A) : recv_result A :=
  match c with
  | NilChan => RecvBlocks
  | MkChan (v :: q) cl => Recv v (MkChan q cl)
  | MkChan [] true => RecvClosed
  | MkChan [] false => RecvBlocks
  end.

Inductive send_result (A : Type) : Type :=
| Sent (c' : Chan A)
| SendBlocks
| SendPanics.
Arguments Sent {A} c'.
Arguments SendBlocks {A}.
Arguments SendPanics {A}.

(** [c <- v].  A send on the nil channel blocks forever; a send on a
    closed channel panics.  On an open channel the send is given as done,
    with the value handed to the receiver: the model takes a receiver to be
    there, and tells nothing of how long the sender waits for it. *)
Definition chan_send {A : Type} (c : Chan A) (v : A) : send_result A :=
  match c with
  | NilChan => SendBlocks
  | MkChan q false => Sent (MkChan (q ++ [v]) false)
  | MkChan _ true => SendPanics
  end.

(** How a flow of control ends. *)
Inductive outcome : Type :=
| Returned
| Panicked (msg : string)
| Blocked.

(** ** The data of the server *)

Definition ID : Type := Z.   (* uint16 *)

Inductive RejectionReason : Type :=
| Prohibited
| ConnectionFailed
| UnknownChannelType
| ResourceShortage.

(** [ssh.Request]. *)
Record Request : Type := {
  ReqType : string;
  WantReply : bool;
  Payload : list byte
}.

(** [ssh.NewChannel]: an offer of a channel by the peer.  [Accept] is what
    accepting it gives: the channel's request queue, or [None] for an
    error.  The byte stream of the accepted channel is named by the offer. *)
Record NewChannel : Type := {
  chan_id : nat;
  ChannelType : string;
  Accept : option (Chan Request)
}.

(** Modelled from the spec: the [Player] struct and [NewPlayer] are declared
    in another file of the package.  A session holds its identity, the raw
    user name, the sanitized display name, the fingerprint and the byte
    stream; [NewPlayer] stores its arguments. *)
Record Player : Type := {
  pid : ID;
  SSHName : string;
  Name : string;
  Fingerprint : string;
  conn : NewChannel
}.

Definition NewPlayer (id : ID) (sshName name hash : string) (c : NewChannel)
  : Player :=
  {| pid := id; SSHName := sshName; Name := name; Fingerprint := hash;
     conn := c |}.

(** The [Server] struct, without its logger [logf]; the element type of
    [Events] is declared in another file and no code here sends on it. *)
Record Server : Type := {
  port : Z;
  addresses : string;
  idPool : Chan ID;
  privateKey : list byte;
  newPlayers : Chan Player;
  onlinePlayers : gmap string Player;
  lines : Z;
  Events : Chan unit
}.

(** What one flow does, in order. *)
Inductive Event : Type :=
| EvLogf (format : string)
| EvGo (routine : string)
| EvReject (c : NewChannel) (reason : RejectionReason) (message : string)
| EvAccept (c : NewChannel)
| EvWrite (c : NewChannel) (data : string)
| EvClose
| EvRegister (p : Player)
| EvPublish (p : Player)
| EvResize (d : resize)           (* a send on [p.resizes] *)
| EvReply (r : Request) (ok : bool).  (* a call [r.Reply(ok, nil)] *)

(** ** [NewServer] *)

Definition is_digit (a : ascii) : bool := in_range 0x30 0x39 (code a).

Fixpoint digits (s : string) : string * string :=
  match s with
  | EmptyString => (EmptyString, EmptyString)
  | String a t =>
      if is_digit a then let '(d, r) := digits t in (String a d, r)
      else (EmptyString, s)
  end.

(** [\d+] at the head of [s]. *)
Definition digits1 (s : string) : option (string * string) :=
  match digits s with
  | (EmptyString, _) => None
  | (d, r) => Some (d, r)
  end.

(** [\d+\.] at the head of [s]. *)
Definition digits_dot (s : string) : option (string * string) :=
  match digits1 s with
  | Some (d, String "." r) => Some (d +:+ ".", r)
  | _ => None
  end.

(** [matchip.FindString], [matchip = ^\d+\.\d+\.\d+\.\d+]. *)
Definition matchip_FindString (s : string) : string :=
  match digits_dot s with
  | Some (a, r1) =>
      match digits_dot r1 with
      | Some (b, r2) =>
          match digits_dot r2 with
          | Some (c, r3) =>
              match digits1 r3 with
              | Some (d, _) => a +:+ b +:+ c +:+ d
              | None => EmptyString
              end
          | None => EmptyString
          end
      | None => EmptyString
      end
  | None => EmptyString
  end.

Definition LF : string := String (ascii_of_nat 10) EmptyString.
Definition CRLF : string := String (ascii_of_nat 13) LF.

Fixpoint Join (l : list string) (sep : string) : string :=
  match l with
  | [] => EmptyString
  | [x] => x
  | x :: l' => x +:+ sep +:+ Join l' sep
  end.

Definition ssh_line (prt : Z) (a : string) : list string :=
  let ipv4 := matchip_FindString a in
  if String.eqb ipv4 "" then [] else [" ssh " +:+ ipv4 +:+ " -p " +:+ pretty prt].

(** Modelled from the spec: [Database] and its [GetPrivateKey] are declared
    in another file; the signing key is loaded from the key store, and a
    failure to load it is an error. *)
Record Database : Type := { stored_key : option (list byte) }.

(** [NewServer]; [ifaddrs] is what [net.InterfaceAddrs] returns ([None] for
    an error).  [newPlayers] is not among the fields the literal sets: it
    keeps the zero value of its type, the nil channel. *)
Definition NewServer (db : Database) (prt : Z) (pool : Chan ID)
    (ifaddrs : option (list string)) : option Server :=
  match stored_key db with
  | None => None
  | Some key =>
      Some {| port := prt;
              addresses :=
                match ifaddrs with
                | Some addrs => Join (flat_map (ssh_line prt) addrs) LF
                | None => EmptyString
                end;
              idPool := pool;
              privateKey := key;
              newPlayers := NilChan;
              onlinePlayers := ∅;
              lines := 1;
              Events := MkChan [] false |}
  end.

(** ** The request dispatcher (lines 161-185) *)

(** One turn of the loop body.  The second component is [Some msg] when the
    turn panics.  A send on [p.resizes] is taken by [resizeWatch]. *)
Definition serve (r : Request) : list Event * option string :=
  let logged := [EvLogf "[%s] response: %#v"] in
  let reply (ok : bool) := [EvLogf "replying ok to a %q request"; EvReply r ok] in
  if String.eqb (ReqType r) "shell" then
    (logged ++ reply (Nat.eqb (List.length (Payload r)) 0), None)
  else if String.eqb (ReqType r) "pty-req" then
    match index (Payload r) 3 with
    | Panic msg => (logged, Some msg)
    | Ok strlen =>
        (* [strlen+4] is computed in [byte] and wraps *)
        let low := Z.to_nat ((byte_val strlen + 4) mod 256) in
        match slice_from (Payload r) low with
        | Panic msg => (logged, Some msg)
        | Ok b =>
            match parseDims b with
            | Panic msg => (logged, Some msg)
            | Ok d => (logged ++ [EvResize d] ++ reply true, None)
            end
        end
    end
  else if String.eqb (ReqType r) "window-change" then
    match parseDims (Payload r) with
    | Panic msg => (logged, Some msg)
    | Ok d => (logged ++ [EvResize d], None)
    end
  else
    (logged ++ reply false, None).

(** The loop over the requests that arrive. *)
Fixpoint dispatch (reqs : list Request) : list Event * option string :=
  match reqs with
  | [] => ([], None)
  | r :: reqs' =>
      match serve r with
      | (evs, Some msg) => (evs, Some msg)
      | (evs, None) =>
          let '(evs', end_) := dispatch reqs' in (evs ++ evs', end_)
      end
  end.

(** [for r := range chanReqs { ... }] as a goroutine: it returns when the
    queue is closed, and waits forever on a queue never closed. *)
Definition dispatcher (chanReqs : Chan Request) : list Event * outcome :=
  match chanReqs with
  | NilChan => ([], Blocked)
  | MkChan reqs closed =>
      match dispatch reqs with
      | (evs, Some msg) => (evs, Panicked msg)
      | (evs, None) => (evs, if closed then Returned else Blocked)
      end
  end.

(** ** The channel rejecter (lines 112-116) *)

Definition only_one : string := "only 1 channel allowed".

Definition rejecter (rest : Chan NewChannel) : list Event * outcome :=
  match rest with
  | NilChan => ([], Blocked)
  | MkChan cs closed =>
      (map (fun c => EvReject c Prohibited only_one) cs,
       if closed then Returned else Blocked)
  end.

(** ** [handle] *)

(** What the transport and the peer do on one connection.  [handshake] is
    the result of [ssh.NewServerConn]: [None] for an error, otherwise the
    user name and the public key that the callback saw. *)
Record TCPConn : Type := {
  handshake : option (string * option (list byte));
  chans : Chan NewChannel;
  RemoteAddr : string
}.

(** One run of [handle]: the server afterwards, the trace and the end of
    the handler's own flow, and those of the two goroutines it starts
    ([None] when the handler never reaches the [go] statement).  The run of
    a goroutine is given in full, as it goes when nothing stops it before
    its end; [rejections] below tells how much of the rejecter's run is
    seen when the connection is torn down under it. *)
Record Run : Type := {
  server : Server;
  main : list Event;
  main_end : outcome;
  rejecting : option (list Event * outcome);
  dispatching : option (list Event * outcome)
}.

Definition full_game : string := "This game is full." +:+ CRLF.

(** The non-blocking pull off the pool (lines 130-134): [id] stays 0 when
    [default] runs, and is the zero value when the pool is closed. *)
Definition draw (pool : Chan ID) : ID * Chan ID :=
  match chan_recv pool with
  | Recv v pool' => (v, pool')
  | RecvClosed => (0%Z, pool)
  | RecvBlocks => (0%Z, pool)
  end.

Definition set_idPool (s : Server) (pool : Chan ID) : Server :=
  {| port := port s; addresses := addresses s; idPool := pool;
     privateKey := privateKey s; newPlayers := newPlayers s;
     onlinePlayers := onlinePlayers s; lines := lines s; Events := Events s |}.

Definition set_onlinePlayers (s : Server) (m : gmap string Player) : Server :=
  {| port := port s; addresses := addresses s; idPool := idPool s;
     privateKey := privateKey s; newPlayers := newPlayers s;
     onlinePlayers := m; lines := lines s; Events := Events s |}.

Definition set_newPlayers (s : Server) (q : Chan Player) : Server :=
  {| port := port s; addresses := addresses s; idPool := idPool s;
     privateKey := privateKey s; newPlayers := q;
     onlinePlayers := onlinePlayers s; lines := lines s; Events := Events s |}.

Section Handler.

(** [hex.EncodeToString(md5.Sum(k))] of a marshalled key, and
    [net.SplitHostPort] reduced to the host ([None] for an error). *)
Variable md5_hex : list byte -> string.
Variable SplitHostPort : string -> option string.

(** The public-key callback (lines 85-92): [hash] stays empty without a
    key. *)
Definition key_hash (publicKey : option (list byte)) : string :=
  match publicKey with
  | Some k => md5_hex k
  | None => EmptyString
  end.

(** Lines 141-144. *)
Definition default_name (name : string) (id : ID) : string :=
  if String.eqb name "" then "player-" +:+ pretty id else name.

(** Lines 145-150. *)
Definition fallback_hash (hash : string) (tcpConn : TCPConn) : string :=
  if String.eqb hash "" then
    match SplitHostPort (RemoteAddr tcpConn) with
    | Some ip => ip
    | None => hash
    end
  else hash.

(** The session that an admission builds. *)
Definition session_of (tc : TCPConn) (user : string)
    (key : option (list byte)) (name : string) (id : ID) (c : NewChannel)
  : Player :=
  NewPlayer id user (default_name name id)
    (fallback_hash (key_hash key) tc) c.

(** Lines 129-186: the channel [c] is accepted, [chanReqs] is its request
    queue.  [pre] is the trace so far, [rej] the rejecter's run. *)
Definition enroll (s : Server) (tcpConn : TCPConn) (sshName hash name : string)
    (c : NewChannel) (chanReqs : Chan Request)
    (pre : list Event) (rej : option (list Event * outcome)) : Run :=
  let '(id, pool') := draw (idPool s) in
  let s1 := set_idPool s pool' in
  if Z.eqb id 0 then
    {| server := s1;
       main := pre ++ [EvWrite c full_game; EvClose];
       main_end := Returned;
       rejecting := rej;
       dispatching := None |}
  else
    let name := default_name name id in
    let hash := fallback_hash hash tcpConn in
    let p := NewPlayer id sshName name hash c in
    let s2 := set_onlinePlayers s1 (<[Name p := p]> (onlinePlayers s1)) in
    let started :=
      pre ++ [EvLogf "Creating new player %q: id: %d, hash: %s";
              EvRegister p;
              EvGo "God"; EvGo "receiveActions"; EvGo "resizeWatch";
              EvGo "dispatcher"] in
    let disp := Some (dispatcher chanReqs) in
    match chan_send (newPlayers s2) p with
    | Sent q =>
        {| server := set_newPlayers s2 q;
           main := started ++ [EvPublish p];
           main_end := Returned;
           rejecting := rej;
           dispatching := disp |}
    | SendBlocks =>
        {| server := s2; main := started; main_end := Blocked;
           rejecting := rej; dispatching := disp |}
    | SendPanics =>
        {| server := s2; main := started; main_end := Panicked send_on_closed;
           rejecting := rej; dispatching := disp |}
    end.

(** Lines 117-128: the first channel, received as [c] ([None] is the nil
    interface value that a closed [chans] yields). *)
Definition first_offer (s : Server) (tcpConn : TCPConn) (sshName hash name : string)
    (c : option NewChannel)
    (pre : list Event) (rej : option (list Event * outcome)) : Run :=
  match c with
  | None =>
      (* [c.ChannelType()] on a nil interface value *)
      {| server := s; main := pre; main_end := Panicked nil_dereference;
         rejecting := rej; dispatching := None |}
  | Some c =>
      let t := ChannelType c in
      if negb (String.eqb t "session") then
        {| server := s;
           main := pre ++ [EvReject c UnknownChannelType
                             ("unknown channel type: " +:+ t);
                           EvClose];
           main_end := Returned;
           rejecting := rej;
           dispatching := None |}
      else
        match Accept c with
        | None =>
            {| server := s;
               main := pre ++ [EvLogf "could not accept channel (%s)"; EvClose];
               main_end := Returned;
               rejecting := rej;
               dispatching := None |}
        | Some chanReqs =>
            enroll s tcpConn sshName hash name c chanReqs
              (pre ++ [EvAccept c]) rej
        end
  end.

Definition handle (s : Server) (tcpConn : TCPConn) : Run :=
  match handshake tcpConn with
  | None =>
      {| server := s;
         main := [EvLogf "new connection handshake failed (%s)"];
         main_end := Returned;
         rejecting := None;
         dispatching := None |}
  | Some (sshName, publicKey) =>
      let hash := key_hash publicKey in
      let pre := [EvGo "DiscardRequests"] in
      match sanitize sshName with
      | Panic msg =>
          {| server := s; main := pre; main_end := Panicked msg;
             rejecting := None; dispatching := None |}
      | Ok name =>
          match chan_recv (chans tcpConn) with
          | RecvBlocks =>
              {| server := s; main := pre; main_end := Blocked;
                 rejecting := None; dispatching := None |}
          | RecvClosed =>
              first_offer s tcpConn sshName hash name None
                (pre ++ [EvGo "rejecter"]) (Some (rejecter (chans tcpConn)))
          | Recv c rest =>
              first_offer s tcpConn sshName hash name (Some c)
                (pre ++ [EvGo "rejecter"]) (Some (rejecter rest))
          end
      end
  end.

End Handler.

(** ** Reading the traces *)

(** The value of four bytes read most significant first. *)
Definition be32 (b0 b1 b2 b3 : byte) : Z :=
  (byte_val b0 * 2 ^ 24 + byte_val b1 * 2 ^ 16 + byte_val b2 * 2 ^ 8
   + byte_val b3)%Z.

Definition word_byte (a : ascii) : bool := is_word (code a).

Definition all_word (s : string) : bool :=
  forallb word_byte (list_ascii_of_string s).

(** The channels accepted in a trace, the replies given in it, and so on. *)
Definition accepted (evs : list Event) : list NewChannel :=
  flat_map (fun e => match e with EvAccept c => [c] | _ => [] end) evs.

Definition replies (evs : list Event) : list (Request * bool) :=
  flat_map (fun e => match e with EvReply r ok => [(r, ok)] | _ => [] end) evs.

Definition resizes (evs : list Event) : list resize :=
  flat_map (fun e => match e with EvResize d => [d] | _ => [] end) evs.

Definition published (evs : list Event) : list Player :=
  flat_map (fun e => match e with EvPublish p => [p] | _ => [] end) evs.

Definition registered (evs : list Event) : list Player :=
  flat_map (fun e => match e with EvRegister p => [p] | _ => [] end) evs.

Definition trace_of (g : option (list Event * outcome)) : list Event :=
  match g with
  | Some g' => fst g'
  | None => []
  end.

(** Everything that happens on the connection, flow by flow. *)
Definition all_events (r : Run) : list Event :=
  main r ++ trace_of (rejecting r) ++ trace_of (dispatching r).

(** The events of the two goroutines. *)
Definition helper_event (e : Event) : bool :=
  match e with
  | EvLogf _ | EvResize _ | EvReply _ _ | EvReject _ _ _ => true
  | _ => false
  end.

(** The first events of every handler that gets past the handshake. *)
Definition opening : list Event := [EvGo "DiscardRequests"; EvGo "rejecter"].

(** What the handler does between the registration and the hand-off. *)
Definition starting : list Event :=
  [EvGo "God"; EvGo "receiveActions"; EvGo "resizeWatch"; EvGo "dispatcher"].

(** ** The life of the connection *)







(** ** Sample inputs *)

Definition sample_requests : Chan Request :=
  MkChan [{| ReqType := "pty-req"; WantReply := true; Payload := [] |}] true.

Definition sample_session : NewChannel :=
  {| chan_id := 0; ChannelType := "session"; Accept := Some sample_requests |}.

Definition sample_forward : NewChannel :=
  {| chan_id := 1; ChannelType := "direct-tcpip"; Accept := None |}.

Definition sample_conn (offers : list NewChannel) : TCPConn :=
  {| handshake := Some ("Bob!!", None);
     chans := MkChan offers true;
     RemoteAddr := "203.0.113.5:51000" |}.

Definition sample_server (pool : Chan ID) : Server :=
  {| port := 2200; addresses := EmptyString; idPool := pool;
     privateKey := []; newPlayers := NilChan; onlinePlayers := ∅;
     lines := 1; Events := MkChan [] false |}.


(** A session channel with a bare "shell" request behind a "pty-req" without
    payload. *)
Definition sample_shell : Request :=
  {| ReqType := "shell"; WantReply := true; Payload := [] |}.

Definition sample_stalled_session : NewChannel :=
  {| chan_id := 3; ChannelType := "session";
     Accept := Some (MkChan [{| ReqType := "pty-req"; WantReply := true;
                                Payload := [] |}; sample_shell] false) |}.

Definition no_md5 (k : list byte) : string := EmptyString.
Definition no_split (a : string) : option string := None.

(** ** [fingerprintKey] *)

(** One hexadecimal digit, lower case, as [%x] and [encoding/hex] write
    it. *)
Definition hexdigit (n : Z) : ascii :=
  if Z.ltb n 10 then chr (0x30 + n) else chr (0x61 + (n - 10)).

(** [fmt.Sprintf("%02x", b)] for a byte [b]: two digits, zero padded. *)
Definition hex_byte (b : byte) : string :=
  String (hexdigit (byte_val b / 16))
    (String (hexdigit (byte_val b mod 16)) EmptyString).

(** [hex.EncodeToString]. *)
Fixpoint hex_EncodeToString (bs : list byte) : string :=
  match bs with
  | [] => EmptyString
  | b :: bs' => hex_byte b +:+ hex_EncodeToString bs'
  end.

(** [fingerprintKey], from the digest [sum = md5.Sum(k.Marshal())]: the
    bytes in hexadecimal, joined by colons. *)
Definition fingerprint_of_sum (sum : list byte) : string :=
  Join (map hex_byte sum) ":".

Section Fingerprint.

(** [md5.Sum], a digest of 16 bytes. *)
Variable md5_Sum : list byte -> list byte.

Definition fingerprintKey (k : list byte) : string :=
  fingerprint_of_sum (md5_Sum k).

(** The [hash] that the public-key callback of [handle] computes. *)
Definition callback_hash (k : list byte) : string :=
  hex_EncodeToString (md5_Sum k).

End Fingerprint.

(** A string without its colons. *)
Fixpoint drop_colons (s : string) : string :=
  match s with
  | EmptyString => EmptyString
  | String a t =>
      if Ascii.eqb a ":" then drop_colons t else String a (drop_colons t)
  end.

(** ** Many draws, many connections *)

(** [n] draws off the pool, one after the other. *)
Fixpoint draws (n : nat) (pool : Chan ID) : list ID * Chan ID :=
  match n with
  | O => ([], pool)
  | S n' =>
      let '(id, pool') := draw pool in
      let '(ids, pool'') := draws n' pool' in
      (id :: ids, pool'')
  end.

(** What is still to come from a channel. *)
Definition pending_of {A : Type} (c : Chan A) : list A :=
  match c with
  | NilChan => []
  | MkChan q _ => q
  end.

(** The registry holds sessions with identities taken off the pool that
    [s0] had, each under its own name, no identity twice. *)
Definition identities_taken (s0 s : Server) : Prop :=
  exists used,
    pending_of (idPool s0) = used ++ pending_of (idPool s)
    /\ (forall k p, onlinePlayers s !! k = Some p ->
                    Name p = k /\ pid p <> 0%Z /\ In (pid p) used)
    /\ (forall k k' p p',
          onlinePlayers s !! k = Some p -> onlinePlayers s !! k' = Some p' ->
          pid p = pid p' -> k = k').

Section Handlers.

Variable md5_hex : list byte -> string.
Variable SplitHostPort : string -> option string.

(** The handlers of several connections, each one done with the server
    before the next one touches it. *)
Definition handle_all (s : Server) (tcs : list TCPConn) : Server :=
  fold_left (fun s' tc => server (handle md5_hex SplitHostPort s' tc)) tcs s.

End Handlers.

(** ** Reading the dispatcher *)

(** The turns that panic: a "pty-req" whose payload is too short for
    [r.Payload[3]] or for the slice that follows. *)
Definition crashes (r : Request) : bool :=
  String.eqb (ReqType r) "pty-req"
  && match nth_error (Payload r) 3 with
     | None => true
     | Some strlen =>
         Nat.ltb (List.length (Payload r))
           (Z.to_nat ((byte_val strlen + 4) mod 256))
     end.

(** The requests that are served: those before the first crashing one. *)
Fixpoint served (reqs : list Request) : list Request :=
  match reqs with
  | [] => []
  | r :: reqs' => if crashes r then [] else r :: served reqs'
  end.

Definition wants_answer (r : Request) : bool :=
  negb (String.eqb (ReqType r) "window-change").

(** The answer to a request: yes to a bare "shell" and to "pty-req". *)
Definition verdict (r : Request) : bool :=
  if String.eqb (ReqType r) "shell" then Nat.eqb (List.length (Payload r)) 0
  else String.eqb (ReqType r) "pty-req".

(** ** Reading [matchip] *)

Definition all_digits (s : string) : bool :=
  forallb is_digit (list_ascii_of_string s).

Definition starts_with_digit (s : string) : bool :=
  match s with
  | EmptyString => false
  | String a _ => is_digit a
  end.

(** The first [k] bytes of [s] are there and none is an ASCII byte. *)
Fixpoint conts (k : nat) (s : string) : bool :=
  match k with
  | O => true
  | S k' =>
      match s with
      | EmptyString => false
      | String a t => Z.leb 0x80 (code a) && conts k' t
      end
  end.

(** The word bytes of a string, in order. *)
Definition word_bytes (s : string) : list ascii :=
  List.filter word_byte (list_ascii_of_string s).

(** * Facts about machine integers *)

Lemma byte_val_range (b : byte) : (0 <= byte_val b < 256)%Z.
Proof.
  unfold byte_val. pose proof (Byte.to_N_bounded b). lia.
Qed.

Lemma lor_shiftl_add (lo hi n : Z) :
  (0 <= n)%Z -> (0 <= lo < 2 ^ n)%Z ->
  Z.lor lo (Z.shiftl hi n) = (lo + hi * 2 ^ n)%Z.
Proof.
  intros Hn Hlo.
  assert (Hland : Z.land lo (Z.shiftl hi n) = 0%Z).
  { apply Z.bits_inj'. intros i Hi.
    rewrite Z.land_spec, Z.bits_0.
    destruct (Z.lt_ge_cases i n) as [Hlt | Hge].
    - rewrite Z.shiftl_spec_low by assumption. apply andb_false_r.
    - rewrite <- (Z.mod_small lo (2 ^ n)) by assumption.
      rewrite Z.mod_pow2_bits_high by lia. reflexivity. }
  pose proof (Z.add_lor_land lo (Z.shiftl hi n)) as Hadd.
  rewrite Hland in Hadd. rewrite <- (Z.shiftl_mul_pow2 hi n) by assumption. lia.
Qed.

Lemma lor_ge_r (x y : Z) : (0 <= x)%Z -> (y <= Z.lor x y)%Z.
Proof.
  intros Hx. pose proof (Z.sub_lor_l_same_r x y) as H.
  assert (0 <= Z.land x (Z.lnot y))%Z by (apply Z.land_nonneg; left; assumption).
  lia.
Qed.

Lemma lor_ge_l (x y : Z) : (0 <= y)%Z -> (x <= Z.lor x y)%Z.
Proof. intros Hy. rewrite Z.lor_comm. apply lor_ge_r. assumption. Qed.


Lemma Uint32_be32 (b0 b1 b2 b3 : byte) (rest : list byte) :
  Uint32 (b0 :: b1 :: b2 :: b3 :: rest) = Ok (be32 b0 b1 b2 b3).
Proof.
  unfold Uint32, be32. f_equal.
  pose proof (byte_val_range b0). pose proof (byte_val_range b1).
  pose proof (byte_val_range b2). pose proof (byte_val_range b3).
  rewrite (lor_shiftl_add (byte_val b3) (byte_val b2) 8) by lia.
  rewrite (lor_shiftl_add _ (byte_val b1) 16) by lia.
  rewrite (lor_shiftl_add _ (byte_val b0) 24) by lia.
  lia.
Qed.

Lemma be32_range (b0 b1 b2 b3 : byte) : (0 <= be32 b0 b1 b2 b3 < 2 ^ 32)%Z.
Proof.
  unfold be32.
  pose proof (byte_val_range b0). pose proof (byte_val_range b1).
  pose proof (byte_val_range b2). pose proof (byte_val_range b3). lia.
Qed.

Lemma parseDims_short (b : list byte) :
  List.length b < 8 -> parseDims b = Ok {| width := 0; height := 0 |}.
Proof.
  intros H. unfold parseDims.
  destruct (Nat.ltb_spec (List.length b) 8) as [_ | Hge]; [reflexivity | lia].
Qed.

Lemma parseDims_long (b0 b1 b2 b3 b4 b5 b6 b7 : byte) (rest : list byte) :
  parseDims (b0 :: b1 :: b2 :: b3 :: b4 :: b5 :: b6 :: b7 :: rest)
  = Ok {| width := be32 b0 b1 b2 b3; height := be32 b4 b5 b6 b7 |}.
Proof.
  unfold parseDims.
  change (Nat.ltb _ 8) with false. cbv iota.
  rewrite Uint32_be32. cbn [go_bind].
  change (slice_from _ 4) with (Ok (b4 :: b5 :: b6 :: b7 :: rest)).
  cbn [go_bind]. rewrite Uint32_be32. reflexivity.
Qed.

Lemma parseDims_total (b : list byte) : exists d, parseDims b = Ok d.
Proof.
  destruct (Nat.lt_ge_cases (List.length b) 8) as [Hlt | Hge].
  - eexists. apply parseDims_short. assumption.
  - do 8 (destruct b as [| ? b]; [simpl in Hge; lia |]).
    eexists. apply parseDims_long.
Qed.



Lemma in_range_spec (lo hi x : Z) :
  in_range lo hi x = true <-> (lo <= x <= hi)%Z.
Proof. unfold in_range. rewrite andb_true_iff, !Z.leb_le. tauto. Qed.

Lemma in_range_false (lo hi x : Z) :
  in_range lo hi x = false <-> (x < lo \/ hi < x)%Z.
Proof.
  unfold in_range. rewrite andb_false_iff, !Z.leb_gt. tauto.
Qed.

Lemma is_word_ascii (r : Z) : is_word r = true -> (0x30 <= r < 0x80)%Z.
Proof.
  unfold is_word. rewrite !orb_true_iff, !in_range_spec, Z.eqb_eq. lia.
Qed.

Lemma code_range (a : ascii) : (0 <= code a < 256)%Z.
Proof. unfold code. pose proof (N_ascii_bounded a). lia. Qed.

Lemma chr_code (a : ascii) : chr (code a) = a.
Proof.
  unfold chr. rewrite Z.mod_small by apply code_range.
  unfold code. rewrite N2Z.id. apply ascii_N_embedding.
Qed.

Lemma first_info_cases (s0 : Z) (sz : nat) (lo hi : Z) :
  first_info s0 = Some (sz, (lo, hi)) ->
  (hi <= 0xBF)%Z /\
  ((sz = 2%nat /\ 0xC2 <= s0 <= 0xDF)%Z
  \/ (sz = 3%nat /\ s0 = 0xE0 /\ lo = 0xA0)%Z
  \/ (sz = 3%nat /\ 0xE1 <= s0 <= 0xEF)%Z
  \/ (sz = 4%nat /\ s0 = 0xF0 /\ lo = 0x90)%Z
  \/ (sz = 4%nat /\ 0xF1 <= s0 <= 0xF4)%Z).
Proof.
  unfold first_info.
  repeat match goal with
  | |- context [in_range ?l ?h s0] =>
      let E := fresh "E" in
      destruct (in_range l h s0) eqn:E;
      [apply in_range_spec in E | apply in_range_false in E]
  | |- context [Z.eqb s0 ?c] =>
      let E := fresh "E" in destruct (Z.eqb_spec s0 c) as [E | E]
  end; intros H; inversion H; subst; lia.
Qed.

Ltac masks :=
  change 0x1F%Z with (Z.ones 5) in *; change 0x0F%Z with (Z.ones 4) in *;
  change 0x07%Z with (Z.ones 3) in *; change 0x3F%Z with (Z.ones 6) in *;
  rewrite ?Z.land_ones, ?Z.shiftl_mul_pow2 in * by lia;
  change (2 ^ 3)%Z with 8%Z in *; change (2 ^ 4)%Z with 16%Z in *;
  change (2 ^ 5)%Z with 32%Z in *; change (2 ^ 6)%Z with 64%Z in *;
  change (2 ^ 12)%Z with 4096%Z in *; change (2 ^ 18)%Z with 262144%Z in *.

Lemma lor3_ge (x y z : Z) :
  (0 <= x)%Z -> (0 <= y)%Z -> (0 <= z)%Z ->
  (x <= Z.lor (Z.lor x y) z /\ y <= Z.lor (Z.lor x y) z)%Z.
Proof.
  intros Hx Hy Hz.
  pose proof (lor_ge_l x y Hy). pose proof (lor_ge_r x y Hx).
  pose proof (lor_ge_l (Z.lor x y) z Hz). lia.
Qed.

(** A rune decoded from a sequence that does not start with an ASCII byte
    is not an ASCII rune. *)
Lemma decode_nonascii (a : ascii) (t : string) (r : Z) (w : nat) :
  (0x80 <= code a)%Z -> DecodeRuneInString (String a t) = (r, w) ->
  (0x80 <= r)%Z.
Proof.
  intros Ha. unfold DecodeRuneInString.
  destruct (Z.ltb_spec (code a) 0x80) as [? | _]; [lia |].
  assert (Herr : forall w', (RuneError, w') = (r, w) -> (0x80 <= r)%Z).
  { intros w' H. inversion H. unfold RuneError. lia. }
  destruct (first_info (code a)) as [[sz [lo hi]] |] eqn:E; [| apply Herr].
  apply first_info_cases in E.
  destruct t as [| a1 t1]; [apply Herr |].
  destruct (in_range lo hi (code a1)) eqn:R1; cbn [negb]; [| apply Herr].
  apply in_range_spec in R1.
  pose proof (code_range a) as Ra. pose proof (code_range a1) as Ra1.
  destruct (Nat.leb_spec sz 2) as [L2 | L2].
  { intros H. inversion H. subst r w.
    assert (0xC2 <= code a <= 0xDF)%Z as B by lia.
    pose proof (lor_ge_l (Z.shiftl (Z.land (code a) 0x1F) 6)
                  (Z.land (code a1) 0x3F)) as G.
    masks; Z.div_mod_to_equations; lia. }
  destruct t1 as [| a2 t2]; [apply Herr |].
  destruct (cont (code a2)) eqn:R2; cbn [negb]; [| apply Herr].
  pose proof (code_range a2) as Ra2.
  destruct (Nat.leb_spec sz 3) as [L3 | L3].
  { intros H. inversion H. subst r w.
    pose proof (lor3_ge (Z.shiftl (Z.land (code a) 0x0F) 12)
                  (Z.shiftl (Z.land (code a1) 0x3F) 6)
                  (Z.land (code a2) 0x3F)) as G.
    masks; Z.div_mod_to_equations; lia. }
  destruct t2 as [| a3 t3]; [apply Herr |].
  destruct (cont (code a3)) eqn:R3; cbn [negb]; [| apply Herr].
  pose proof (code_range a3) as Ra3.
  intros H. inversion H. subst r w.
  pose proof (lor3_ge (Z.shiftl (Z.land (code a) 0x07) 18)
                (Z.shiftl (Z.land (code a1) 0x3F) 12)
                (Z.shiftl (Z.land (code a2) 0x3F) 6)) as G.
  pose proof (lor_ge_l
                (Z.lor (Z.lor (Z.shiftl (Z.land (code a) 0x07) 18)
                          (Z.shiftl (Z.land (code a1) 0x3F) 12))
                   (Z.shiftl (Z.land (code a2) 0x3F) 6))
                (Z.land (code a3) 0x3F)) as G'.
  masks; Z.div_mod_to_equations; lia.
Qed.

Lemma decode_ascii (a : ascii) (t : string) :
  (code a < 0x80)%Z -> DecodeRuneInString (String a t) = (code a, 1).
Proof.
  intros H. unfold DecodeRuneInString.
  destruct (Z.ltb_spec (code a) 0x80); [reflexivity | lia].
Qed.

Lemma decode_word (a : ascii) (t : string) (r : Z) (w : nat) :
  DecodeRuneInString (String a t) = (r, w) -> is_word r = true ->
  r = code a /\ w = 1.
Proof.
  intros E W. apply is_word_ascii in W.
  destruct (Z.lt_ge_cases (code a) 0x80) as [Hlt | Hge].
  - rewrite decode_ascii in E by assumption. inversion E. split; reflexivity.
  - pose proof (decode_nonascii a t r w Hge E). lia.
Qed.

Lemma replace_from_keep (keep : bool) (s : string) :
  replace_from keep 0 s = replace_from false 0 s.
Proof. destruct s; reflexivity. Qed.

Lemma replace_from_all_word (s : string) :
  forall k, all_word (replace_from false k s) = true.
Proof.
  induction s as [| a t IH]; intros k; [reflexivity |].
  cbn [replace_from]. destruct k as [| k]; [| apply IH].
  destruct (DecodeRuneInString (String a t)) as [r w] eqn:E.
  destruct (is_word r) eqn:W; [| apply IH].
  destruct (decode_word a t r w E W) as [-> ->].
  cbn [Nat.pred]. rewrite replace_from_keep.
  unfold all_word. cbn [list_ascii_of_string forallb].
  unfold word_byte at 1. rewrite W. apply IH.
Qed.

Lemma word_byte_ascii (a : ascii) : word_byte a = true -> (code a < 0x80)%Z.
Proof. intros H. apply is_word_ascii in H. lia. Qed.

Lemma runes_all_word (s : string) :
  all_word s = true -> runes s = map code (list_ascii_of_string s).
Proof.
  unfold runes, all_word.
  induction s as [| a t IH]; [reflexivity |].
  cbn [list_ascii_of_string forallb map runes_from].
  intros H. apply andb_true_iff in H as [Ha Ht].
  rewrite decode_ascii by (apply word_byte_ascii; assumption).
  cbn [Nat.pred]. rewrite IH by assumption. reflexivity.
Qed.

Lemma length_list_ascii (s : string) :
  List.length (list_ascii_of_string s) = String.length s.
Proof. induction s as [| a t IH]; [reflexivity |]. cbn. rewrite IH. reflexivity. Qed.

Lemma encoderune_ascii (a : ascii) :
  (code a < 0x80)%Z -> encoderune (code a) = String a EmptyString.
Proof.
  intros H. unfold encoderune.
  assert (R : in_range 0 0x7F (code a) = true).
  { apply in_range_spec. pose proof (code_range a). lia. }
  rewrite R, chr_code. reflexivity.
Qed.

Lemma string_of_runes_codes (l : list ascii) :
  forallb word_byte l = true ->
  string_of_runes (map code l) = string_of_list_ascii l.
Proof.
  induction l as [| a l IH]; [reflexivity |].
  cbn [forallb map string_of_runes string_of_list_ascii].
  intros H. apply andb_true_iff in H as [Ha Hl].
  rewrite encoderune_ascii by (apply word_byte_ascii; assumption).
  rewrite IH by assumption. reflexivity.
Qed.

Lemma forallb_firstn {A : Type} (f : A -> bool) (n : nat) (l : list A) :
  forallb f l = true -> forallb f (firstn n l) = true.
Proof.
  revert n. induction l as [| x l IH]; intros [| n] H; try reflexivity.
  cbn [firstn forallb] in *. apply andb_true_iff in H as [Hx Hl].
  rewrite Hx, IH by assumption. reflexivity.
Qed.

(** The filter leaves word bytes only, and the cut is in range whenever it
    is taken: the name is defined, made of word bytes, and short. *)
Lemma sanitize_ok (sshName : string) :
  exists name, sanitize sshName = Ok name /\ all_word name = true
               /\ String.length name <= maxlen.
Proof.
  unfold sanitize.
  pose proof (replace_from_all_word sshName 0) as W.
  fold (filtername_ReplaceAllString sshName) in W.
  set (name := filtername_ReplaceAllString sshName) in *.
  destruct (Nat.ltb_spec maxlen (String.length name)) as [Hlong | Hshort].
  - unfold slice_to. rewrite runes_all_word by assumption.
    rewrite length_map, length_list_ascii.
    destruct (Nat.leb_spec maxlen (String.length name)) as [_ | ?]; [| lia].
    cbn [go_bind]. rewrite List.firstn_map.
    pose proof (forallb_firstn word_byte maxlen _ W) as W'.
    rewrite string_of_runes_codes by assumption.
    eexists. split; [reflexivity |]. split.
    + unfold all_word. rewrite list_ascii_of_string_of_list_ascii. assumption.
    + rewrite <- length_list_ascii, list_ascii_of_string_of_list_ascii.
      apply firstn_le_length.
  - exists name. auto.
Qed.

Lemma all_word_runes (s : string) :
  all_word s = true ->
  Forall (fun r => is_word r = true) (runes s)
  /\ RuneCountInString s = String.length s.
Proof.
  intros W. unfold RuneCountInString. rewrite runes_all_word by assumption.
  rewrite length_map, length_list_ascii. split; [| reflexivity].
  apply Forall_map. unfold all_word in W.
  rewrite forallb_forall in W. apply List.Forall_forall. exact W.
Qed.




(** ** The dispatcher *)

Lemma serve_shell (r : Request) :
  ReqType r = "shell" ->
  serve r = ([EvLogf "[%s] response: %#v"; EvLogf "replying ok to a %q request";
              EvReply r (Nat.eqb (List.length (Payload r)) 0)], None).
Proof. intros H. unfold serve. rewrite H. reflexivity. Qed.

Lemma serve_pty_short (r : Request) :
  ReqType r = "pty-req" -> List.length (Payload r) < 4 ->
  serve r = ([EvLogf "[%s] response: %#v"], Some index_out_of_range).
Proof.
  intros H L. unfold serve, index. rewrite H. cbn [String.eqb Ascii.eqb Bool.eqb].
  destruct (nth_error (Payload r) 3) eqn:E; [| reflexivity].
  assert (Hs : nth_error (Payload r) 3 <> None) by congruence.
  apply List.nth_error_Some in Hs. lia.
Qed.

Lemma serve_pty (r : Request) (strlen : byte) (d : resize) :
  ReqType r = "pty-req" ->
  nth_error (Payload r) 3 = Some strlen ->
  Z.to_nat ((byte_val strlen + 4) mod 256) <= List.length (Payload r) ->
  parseDims (skipn (Z.to_nat ((byte_val strlen + 4) mod 256)) (Payload r)) = Ok d ->
  serve r = ([EvLogf "[%s] response: %#v"; EvResize d;
              EvLogf "replying ok to a %q request"; EvReply r true], None).
Proof.
  intros H E L D. unfold serve, index, slice_from. rewrite H, E.
  cbn [String.eqb Ascii.eqb Bool.eqb].
  destruct (Nat.leb_spec (Z.to_nat ((byte_val strlen + 4) mod 256))
              (List.length (Payload r))) as [_ | ?]; [| lia].
  rewrite D. reflexivity.
Qed.

Lemma serve_window_change (r : Request) :
  ReqType r = "window-change" ->
  exists d, parseDims (Payload r) = Ok d
            /\ serve r = ([EvLogf "[%s] response: %#v"; EvResize d], None).
Proof.
  intros H. destruct (parseDims_total (Payload r)) as [d D].
  exists d. split; [assumption |]. unfold serve. rewrite H, D. reflexivity.
Qed.

Lemma serve_other (r : Request) :
  ReqType r <> "shell" -> ReqType r <> "pty-req" ->
  ReqType r <> "window-change" ->
  serve r = ([EvLogf "[%s] response: %#v"; EvLogf "replying ok to a %q request";
              EvReply r false], None).
Proof.
  intros H1 H2 H3. unfold serve.
  apply String.eqb_neq in H1, H2, H3. rewrite H1, H2, H3. reflexivity.
Qed.

(** The goroutines accept, register and publish nothing. *)
Lemma helper_events_silent (evs : list Event) :
  forallb helper_event evs = true ->
  accepted evs = [] /\ published evs = [] /\ registered evs = [].
Proof.
  induction evs as [| e evs IH]; [auto |].
  cbn [forallb]. intros H. apply andb_true_iff in H as [He Hevs].
  destruct (IH Hevs) as (A & P & R).
  unfold accepted, published, registered in *. cbn [flat_map].
  rewrite A, P, R. destruct e; try discriminate He; auto.
Qed.

Lemma serve_helper_events (r : Request) :
  forallb helper_event (fst (serve r)) = true.
Proof.
  unfold serve.
  repeat match goal with
  | |- context [if ?b then _ else _] => destruct b
  | |- context [match ?x with _ => _ end] => destruct x
  end; reflexivity.
Qed.

Lemma dispatch_helper_events (reqs : list Request) :
  forallb helper_event (fst (dispatch reqs)) = true.
Proof.
  induction reqs as [| r reqs IH]; [reflexivity |].
  cbn [dispatch]. pose proof (serve_helper_events r) as S.
  destruct (serve r) as [evs [msg |]]; cbn [fst] in *; [assumption |].
  destruct (dispatch reqs) as [evs' e]. cbn [fst] in *.
  rewrite forallb_app, S, IH. reflexivity.
Qed.

Lemma dispatcher_helper_events (q : Chan Request) :
  forallb helper_event (fst (dispatcher q)) = true.
Proof.
  destruct q as [| reqs cl]; [reflexivity |]. unfold dispatcher.
  pose proof (dispatch_helper_events reqs) as D.
  destruct (dispatch reqs) as [evs [msg |]]; assumption.
Qed.

Lemma rejecter_helper_events (q : Chan NewChannel) :
  forallb helper_event (fst (rejecter q)) = true.
Proof.
  destruct q as [| cs cl]; [reflexivity |]. cbn [rejecter fst].
  induction cs as [| c cs IH]; [reflexivity | exact IH].
Qed.

Lemma accepted_app (e1 e2 : list Event) :
  accepted (e1 ++ e2) = accepted e1 ++ accepted e2.
Proof. apply flat_map_app. Qed.

Lemma published_app (e1 e2 : list Event) :
  published (e1 ++ e2) = published e1 ++ published e2.
Proof. apply flat_map_app. Qed.

Lemma registered_app (e1 e2 : list Event) :
  registered (e1 ++ e2) = registered e1 ++ registered e2.
Proof. apply flat_map_app. Qed.

(** A turn that ends well answers every request but a window change, once;
    a window change is never answered. *)
Lemma served_replies (r : Request) (evs : list Event) :
  serve r = (evs, None) ->
  if String.eqb (ReqType r) "window-change" then replies evs = []
  else exists ok, replies evs = [(r, ok)].
Proof.
  unfold serve.
  destruct (String.eqb (ReqType r) "shell") eqn:E1.
  { apply String.eqb_eq in E1. rewrite E1. intros H. inversion H. cbn. eauto. }
  destruct (String.eqb (ReqType r) "pty-req") eqn:E2.
  { apply String.eqb_eq in E2. rewrite E2.
    destruct (index (Payload r) 3) as [strlen | msg]; [| discriminate].
    destruct (slice_from _ _) as [b | msg]; [| discriminate].
    destruct (parseDims b) as [d | msg]; [| discriminate].
    intros H. inversion H. cbn. eauto. }
  destruct (String.eqb (ReqType r) "window-change") eqn:E3.
  { destruct (parseDims (Payload r)) as [d | msg]; [| discriminate].
    intros H. inversion H. reflexivity. }
  intros H. inversion H. cbn. eauto.
Qed.

(** The loop is the turns one after the other, up to the first panic. *)
Lemma dispatch_app (pre post : list Request) (evs : list Event) :
  dispatch pre = (evs, None) ->
  dispatch (pre ++ post) = (evs ++ fst (dispatch post), snd (dispatch post)).
Proof.
  revert evs. induction pre as [| r pre IH]; intros evs H.
  - inversion H. cbn [app]. destruct (dispatch post); reflexivity.
  - cbn [dispatch app] in *.
    destruct (serve r) as [e1 [msg |]]; [discriminate |].
    destruct (dispatch pre) as [e2 o2]. inversion H. subst.
    rewrite (IH e2 eq_refl). cbn [fst snd]. rewrite app_assoc. reflexivity.
Qed.

(** * The claims about decoding and dispatching *)

(** C5.  [parseDims] gives 0 by 0 for every buffer shorter than 8 bytes;
    on a longer buffer the width is the first four bytes read big-endian
    and the height the next four, so the bytes 00 00 00 50 00 00 00 18
    give 80 by 24; and it never panics. *)
Theorem parseDims_decodes :
  (forall b : list byte,
     List.length b < 8 -> parseDims b = Ok {| width := 0; height := 0 |})
  /\ (forall (b0 b1 b2 b3 b4 b5 b6 b7 : byte) (rest : list byte),
        parseDims (b0 :: b1 :: b2 :: b3 :: b4 :: b5 :: b6 :: b7 :: rest)
        = Ok {| width := be32 b0 b1 b2 b3; height := be32 b4 b5 b6 b7 |})
  /\ parseDims [x00; x00; x00; x50; x00; x00; x00; x18]
     = Ok {| width := 80; height := 24 |}
  /\ (forall b : list byte, exists d, parseDims b = Ok d).
Proof.
  split; [exact parseDims_short |].
  split; [exact parseDims_long |].
  split; [reflexivity | exact parseDims_total].
Qed.

Lemma parseDims_decodes_witness :
  List.length [x00; x50; x00] < 8
  /\ parseDims [x00; x50; x00] = Ok {| width := 0; height := 0 |}.
Proof.
  split; [cbn; lia |].
  apply (proj1 parseDims_decodes [x00; x50; x00]). cbn. lia.
Defined.

(** C2.  For every user name the filter and the cut are defined, and the
    name they give holds word runes only and at most [maxlen] = 100 of
    them, counted in code points. *)
Theorem sanitize_word_bounded (sshName : string) :
  exists name,
    sanitize sshName = Ok name
    /\ Forall (fun r => is_word r = true) (runes name)
    /\ RuneCountInString name <= maxlen.
Proof.
  destruct (sanitize_ok sshName) as (name & E & W & L).
  destruct (all_word_runes name W) as [F C].
  exists name. rewrite C. auto.
Qed.

(** A turn on a "shell" request answers it once: with ok when its payload
    is empty, with a refusal when it is not. *)
Lemma shell_reply (r : Request) :
  ReqType r = "shell" ->
  (Payload r = [] -> replies (fst (serve r)) = [(r, true)])
  /\ (Payload r <> [] -> replies (fst (serve r)) = [(r, false)])
  /\ snd (serve r) = None.
Proof.
  intros H. rewrite (serve_shell r H). cbn [fst snd].
  repeat split.
  - intros ->. reflexivity.
  - intros Hne. destruct (Payload r); [congruence | reflexivity].
Qed.

(** C3, at the input where the code departs from it.  A "pty-req" request
    whose payload has fewer than 4 bytes makes the turn panic on
    [r.Payload[3]]: no resize is forwarded and no reply is given. *)
Theorem pty_req_short_payload_panics (r : Request) :
  ReqType r = "pty-req" -> List.length (Payload r) < 4 ->
  snd (serve r) = Some index_out_of_range
  /\ resizes (fst (serve r)) = []
  /\ replies (fst (serve r)) = [].
Proof.
  intros H L. rewrite (serve_pty_short r H L). auto.
Qed.

Lemma pty_req_short_payload_panics_witness :
  let r := {| ReqType := "pty-req"; WantReply := true; Payload := [] |} in
  ReqType r = "pty-req" /\ List.length (Payload r) < 4
  /\ snd (serve r) = Some index_out_of_range.
Proof.
  intros r. split; [reflexivity |]. split; [cbn; lia |].
  apply (pty_req_short_payload_panics r); [reflexivity | cbn; lia].
Defined.

(** C9, at the input where the code departs from it.  When a "pty-req"
    request with fewer than 4 bytes of payload is drained, the dispatcher
    panics before it replies: that request gets no reply, and neither does
    any request queued behind it. *)
Theorem dispatcher_leaves_pty_req_unanswered (r : Request)
    (rest : list Request) (cl : bool) :
  ReqType r = "pty-req" -> List.length (Payload r) < 4 ->
  replies (fst (dispatcher (MkChan (r :: rest) cl))) = []
  /\ snd (dispatcher (MkChan (r :: rest) cl)) = Panicked index_out_of_range.
Proof.
  intros H L. unfold dispatcher. cbn [dispatch].
  rewrite (serve_pty_short r H L). auto.
Qed.

Lemma dispatcher_leaves_pty_req_unanswered_witness :
  let r := {| ReqType := "pty-req"; WantReply := true; Payload := [] |} in
  let r' := {| ReqType := "shell"; WantReply := true; Payload := [] |} in
  ReqType r = "pty-req" /\ List.length (Payload r) < 4
  /\ replies (fst (dispatcher (MkChan [r; r'] true))) = [].
Proof.
  intros r r'. split; [reflexivity |]. split; [cbn; lia |].
  apply (dispatcher_leaves_pty_req_unanswered r [r'] true);
    [reflexivity | cbn; lia].
Defined.

(** * The handler *)

Lemma NewServer_fields (db : Database) (prt : Z) (pool : Chan ID)
    (ifaddrs : option (list string)) (s : Server) :
  NewServer db prt pool ifaddrs = Some s ->
  newPlayers s = NilChan /\ idPool s = pool /\ onlinePlayers s = ∅.
Proof.
  unfold NewServer. destruct (stored_key db); [| discriminate].
  intros H. inversion H. auto.
Qed.

Lemma draw_nothing_ready (pool : Chan ID) :
  pool = NilChan \/ (exists cl, pool = MkChan [] cl) -> draw pool = (0%Z, pool).
Proof.
  intros [-> | [cl ->]]; [reflexivity |]. destruct cl; reflexivity.
Qed.

Section HandlerFacts.

Variable md5_hex : list byte -> string.
Variable SplitHostPort : string -> option string.

(** After the handshake the handler takes the first offer and leaves the
    others to the rejecter. *)
Lemma handle_first (s : Server) (tc : TCPConn) (user : string)
    (key : option (list byte)) (c : NewChannel) (rest : list NewChannel)
    (cl : bool) :
  handshake tc = Some (user, key) -> chans tc = MkChan (c :: rest) cl ->
  exists name,
    sanitize user = Ok name
    /\ handle md5_hex SplitHostPort s tc
       = first_offer SplitHostPort s tc user (key_hash md5_hex key) name (Some c)
           opening (Some (rejecter (MkChan rest cl))).
Proof.
  intros Hh Hc. unfold handle. rewrite Hh, Hc.
  destruct (sanitize_ok user) as (name & E & _). rewrite E.
  cbn [chan_recv]. exists name. split; reflexivity.
Qed.

Lemma handle_accepted (s : Server) (tc : TCPConn) (user : string)
    (key : option (list byte)) (c : NewChannel) (rest : list NewChannel)
    (cl : bool) (reqs : Chan Request) :
  handshake tc = Some (user, key) -> chans tc = MkChan (c :: rest) cl ->
  ChannelType c = "session" -> Accept c = Some reqs ->
  exists name,
    sanitize user = Ok name
    /\ handle md5_hex SplitHostPort s tc
       = enroll SplitHostPort s tc user (key_hash md5_hex key) name c reqs
           (opening ++ [EvAccept c]) (Some (rejecter (MkChan rest cl))).
Proof.
  intros Hh Hc Ht Ha.
  destruct (handle_first s tc user key c rest cl Hh Hc) as (name & E & R).
  exists name. split; [assumption |]. rewrite R. unfold first_offer.
  rewrite Ht, Ha. reflexivity.
Qed.

(** With a hand-off queue in place, an admission registers the session
    and then hands it over, once. *)
Lemma admission_publishes (s : Server) (tc : TCPConn) (user : string)
    (key : option (list byte)) (c : NewChannel) (rest : list NewChannel)
    (cl : bool) (reqs : Chan Request) (id : ID) (pool' : Chan ID)
    (q : list Player) :
  newPlayers s = MkChan q false ->
  handshake tc = Some (user, key) -> chans tc = MkChan (c :: rest) cl ->
  ChannelType c = "session" -> Accept c = Some reqs ->
  draw (idPool s) = (id, pool') -> id <> 0%Z ->
  exists name,
    sanitize user = Ok name
    /\ let p := session_of md5_hex SplitHostPort tc user key name id c in
       let r := handle md5_hex SplitHostPort s tc in
       main r = opening ++ [EvAccept c;
                            EvLogf "Creating new player %q: id: %d, hash: %s";
                            EvRegister p] ++ starting ++ [EvPublish p]
       /\ main_end r = Returned
       /\ onlinePlayers (server r) = <[Name p := p]> (onlinePlayers s)
       /\ newPlayers (server r) = MkChan (q ++ [p]) false
       /\ published (all_events r) = [p].
Proof.
  intros Hq Hh Hc Ht Ha Hd Hid.
  destruct (handle_accepted s tc user key c rest cl reqs Hh Hc Ht Ha)
    as (name & E & R).
  exists name. split; [assumption |]. cbv zeta. rewrite R. unfold enroll.
  rewrite Hd. apply Z.eqb_neq in Hid. rewrite Hid.
  cbn [newPlayers set_onlinePlayers set_idPool]. rewrite Hq.
  cbn [chan_send main main_end server onlinePlayers newPlayers
       set_newPlayers set_onlinePlayers set_idPool].
  fold (session_of md5_hex SplitHostPort tc user key name id c).
  repeat split.
  unfold all_events. cbn [main rejecting dispatching trace_of].
  rewrite !published_app.
  destruct (helper_events_silent _ (rejecter_helper_events (MkChan rest cl)))
    as (_ & -> & _).
  destruct (helper_events_silent _ (dispatcher_helper_events reqs))
    as (_ & -> & _).
  reflexivity.
Qed.

(** C1, at the input where the code departs from it.  On the server that
    [NewServer] builds, [newPlayers] is the nil channel: an admission
    registers the session under its display name and then blocks on the
    send for ever, and nothing is delivered. *)
Theorem admission_blocks_on_new_server (db : Database) (prt : Z)
    (pool : Chan ID) (ifaddrs : option (list string)) (s : Server)
    (tc : TCPConn) (user : string) (key : option (list byte))
    (c : NewChannel) (rest : list NewChannel) (cl : bool)
    (reqs : Chan Request) (id : ID) (pool' : Chan ID) :
  NewServer db prt pool ifaddrs = Some s ->
  handshake tc = Some (user, key) -> chans tc = MkChan (c :: rest) cl ->
  ChannelType c = "session" -> Accept c = Some reqs ->
  draw pool = (id, pool') -> id <> 0%Z ->
  exists name,
    sanitize user = Ok name
    /\ let p := session_of md5_hex SplitHostPort tc user key name id c in
       let r := handle md5_hex SplitHostPort s tc in
       registered (main r) = [p]
       /\ onlinePlayers (server r) !! Name p = Some p
       /\ main_end r = Blocked
       /\ published (all_events r) = []
       /\ newPlayers (server r) = NilChan.
Proof.
  intros Hs Hh Hc Ht Ha Hd Hid.
  destruct (NewServer_fields _ _ _ _ _ Hs) as (Hq & Hp & _).
  destruct (handle_accepted s tc user key c rest cl reqs Hh Hc Ht Ha)
    as (name & E & R).
  exists name. split; [assumption |]. cbv zeta. rewrite R. unfold enroll.
  rewrite Hp, Hd. apply Z.eqb_neq in Hid. rewrite Hid.
  cbn [newPlayers set_onlinePlayers set_idPool]. rewrite Hq.
  cbn [chan_send main main_end server onlinePlayers newPlayers
       set_newPlayers set_onlinePlayers set_idPool].
  fold (session_of md5_hex SplitHostPort tc user key name id c).
  split; [reflexivity |].
  split; [apply lookup_insert_eq |].
  split; [reflexivity |].
  split; [| exact Hq].
  unfold all_events. cbn [main rejecting dispatching trace_of].
  rewrite !published_app.
  destruct (helper_events_silent _ (rejecter_helper_events (MkChan rest cl)))
    as (_ & -> & _).
  destruct (helper_events_silent _ (dispatcher_helper_events reqs))
    as (_ & -> & _).
  reflexivity.
Qed.

Ltac goroutines_silent :=
  unfold all_events; cbn [main rejecting dispatching trace_of];
  rewrite ?accepted_app, ?published_app, ?registered_app;
  repeat match goal with
  | |- context [fst (rejecter ?q)] =>
      let A := fresh in let P := fresh in let R := fresh in
      destruct (helper_events_silent _ (rejecter_helper_events q))
        as (A & P & R);
      rewrite ?A, ?P, ?R; clear A P R
  | |- context [fst (dispatcher ?q)] =>
      let A := fresh in let P := fresh in let R := fresh in
      destruct (helper_events_silent _ (dispatcher_helper_events q))
        as (A & P & R);
      rewrite ?A, ?P, ?R; clear A P R
  end.





(** C8, at the input where the code departs from it.  On the channel of a
    registered session, a "shell" request that arrives behind a "pty-req"
    of fewer than 4 bytes is never answered: the dispatcher of the channel
    panics on the "pty-req" and gives no reply at all. *)
Theorem shell_behind_short_pty_req_unanswered (s : Server) (tc : TCPConn)
    (user : string) (key : option (list byte)) (c : NewChannel)
    (rest : list NewChannel) (cl : bool) (bad sh : Request)
    (more : list Request) (qcl : bool) (id : ID) (pool' : Chan ID) :
  handshake tc = Some (user, key) -> chans tc = MkChan (c :: rest) cl ->
  ChannelType c = "session" ->
  Accept c = Some (MkChan (bad :: sh :: more) qcl) ->
  draw (idPool s) = (id, pool') -> id <> 0%Z ->
  ReqType bad = "pty-req" -> List.length (Payload bad) < 4 ->
  ReqType sh = "shell" ->
  exists evs,
    dispatching (handle md5_hex SplitHostPort s tc)
    = Some (evs, Panicked index_out_of_range)
    /\ (forall ok, ~ In (sh, ok) (replies evs))
    /\ replies evs = [].
Proof.
  intros Hh Hc Ht Ha Hd Hid Hb Hl Hs.
  destruct (handle_accepted s tc user key c rest cl _ Hh Hc Ht Ha)
    as (name & _ & R).
  exists [EvLogf "[%s] response: %#v"].
  split; [| split; [intros ok [] | reflexivity]].
  rewrite R. unfold enroll. rewrite Hd.
  apply Z.eqb_neq in Hid. rewrite Hid.
  assert (D : dispatcher (MkChan (bad :: sh :: more) qcl)
              = ([EvLogf "[%s] response: %#v"], Panicked index_out_of_range)).
  { unfold dispatcher. cbn [dispatch].
    rewrite (serve_pty_short bad Hb Hl). reflexivity. }
  rewrite D. destruct (chan_send _ _); reflexivity.
Qed.

(** C6.  When the first offer is not of type "session", it is rejected
    with [UnknownChannelType], the connection is closed and the handler
    returns: the server is as before, and no channel is accepted, no
    session registered or published. *)
Theorem non_session_first_channel (s : Server) (tc : TCPConn)
    (user : string) (key : option (list byte)) (c : NewChannel)
    (rest : list NewChannel) (cl : bool) :
  handshake tc = Some (user, key) -> chans tc = MkChan (c :: rest) cl ->
  ChannelType c <> "session" ->
  let r := handle md5_hex SplitHostPort s tc in
  main r = opening ++ [EvReject c UnknownChannelType
                         ("unknown channel type: " +:+ ChannelType c);
                       EvClose]
  /\ main_end r = Returned
  /\ server r = s
  /\ accepted (all_events r) = []
  /\ registered (all_events r) = []
  /\ published (all_events r) = [].
Proof.
  intros Hh Hc Ht.
  destruct (handle_first s tc user key c rest cl Hh Hc) as (name & _ & R).
  cbv zeta. rewrite R. unfold first_offer.
  apply String.eqb_neq in Ht. rewrite Ht. cbn [negb main main_end server].
  repeat split; goroutines_silent; reflexivity.
Qed.

(** C7.  The draw never waits: with nothing ready in the pool it gives the
    sentinel 0 at once.  When the draw gives 0 after the channel is
    accepted, the handler writes the notice, closes the connection and
    returns; the registry is as before, and no session is registered or
    published. *)
Theorem full_game_notice (s : Server) (tc : TCPConn)
    (user : string) (key : option (list byte)) (c : NewChannel)
    (rest : list NewChannel) (cl : bool) (reqs : Chan Request) :
  handshake tc = Some (user, key) -> chans tc = MkChan (c :: rest) cl ->
  ChannelType c = "session" -> Accept c = Some reqs ->
  let r := handle md5_hex SplitHostPort s tc in
  (idPool s = NilChan \/ (exists cl', idPool s = MkChan [] cl') ->
   draw (idPool s) = (0%Z, idPool s))
  /\ (fst (draw (idPool s)) = 0%Z ->
      main r = opening ++ [EvAccept c; EvWrite c full_game; EvClose]
      /\ main_end r = Returned
      /\ onlinePlayers (server r) = onlinePlayers s
      /\ newPlayers (server r) = newPlayers s
      /\ dispatching r = None
      /\ registered (all_events r) = []
      /\ published (all_events r) = []).
Proof.
  intros Hh Hc Ht Ha.
  destruct (handle_accepted s tc user key c rest cl reqs Hh Hc Ht Ha)
    as (name & _ & R).
  cbv zeta. split; [apply draw_nothing_ready |].
  rewrite R. unfold enroll.
  destruct (draw (idPool s)) as [id pool']. cbn [fst]. intros ->.
  cbn [Z.eqb main main_end server dispatching onlinePlayers newPlayers
       set_idPool].
  repeat split; goroutines_silent; reflexivity.
Qed.

(** C10, at the input where the code departs from it.  When the transport
    closes the offer stream before any offer, [<-chans] gives the nil
    interface value and the call of [ChannelType] on it panics. *)
Theorem no_offer_nil_dereference (s : Server) (tc : TCPConn)
    (user : string) (key : option (list byte)) :
  handshake tc = Some (user, key) -> chans tc = MkChan [] true ->
  main_end (handle md5_hex SplitHostPort s tc) = Panicked nil_dereference
  /\ main (handle md5_hex SplitHostPort s tc) = opening.
Proof.
  intros Hh Hc. unfold handle. rewrite Hh, Hc.
  destruct (sanitize_ok user) as (name & -> & _).
  cbn [chan_recv first_offer main main_end]. split; reflexivity.
Qed.

End HandlerFacts.

(** * The claims on sample connections *)

Lemma admission_blocks_on_new_server_witness :
  let pool := MkChan [7%Z] false in
  let tc := sample_conn [sample_session; sample_forward] in
  let r := handle no_md5 no_split (sample_server pool) tc in
  NewServer {| stored_key := Some [] |} 2200 pool None = Some (sample_server pool)
  /\ handshake tc = Some ("Bob!!", None)
  /\ chans tc = MkChan [sample_session; sample_forward] true
  /\ ChannelType sample_session = "session"
  /\ Accept sample_session = Some sample_requests
  /\ draw pool = (7%Z, MkChan [] false)
  /\ 7%Z <> 0%Z
  /\ main_end r = Blocked
  /\ published (all_events r) = [].
Proof.
  intros pool tc r.
  assert (Hid : 7%Z <> 0%Z) by discriminate.
  do 7 (split; [first [reflexivity | exact Hid] |]).
  destruct (admission_blocks_on_new_server no_md5 no_split
              {| stored_key := Some [] |} 2200 pool None (sample_server pool)
              tc "Bob!!" None sample_session [sample_forward] true
              sample_requests 7%Z (MkChan [] false)
              eq_refl eq_refl eq_refl eq_refl eq_refl eq_refl Hid)
    as (name & _ & _ & _ & Hend & Hpub & _).
  split; assumption.
Defined.



Lemma shell_behind_short_pty_req_unanswered_witness :
  let s := sample_server (MkChan [7%Z] false) in
  let tc := sample_conn [sample_stalled_session] in
  handshake tc = Some ("Bob!!", None)
  /\ chans tc = MkChan [sample_stalled_session] true
  /\ ChannelType sample_stalled_session = "session"
  /\ draw (idPool s) = (7%Z, MkChan [] false)
  /\ 7%Z <> 0%Z
  /\ exists evs,
       dispatching (handle no_md5 no_split s tc)
       = Some (evs, Panicked index_out_of_range)
       /\ forall ok, ~ In (sample_shell, ok) (replies evs).
Proof.
  intros s tc.
  assert (Hid : 7%Z <> 0%Z) by discriminate.
  do 4 (split; [reflexivity |]). split; [exact Hid |].
  destruct (shell_behind_short_pty_req_unanswered no_md5 no_split s tc
              "Bob!!" None sample_stalled_session [] true
              {| ReqType := "pty-req"; WantReply := true; Payload := [] |}
              sample_shell [] false 7%Z (MkChan [] false)
              eq_refl eq_refl eq_refl eq_refl eq_refl Hid
              eq_refl (Nat.lt_0_succ 3) eq_refl)
    as (evs & Hd & Hno & _).
  exists evs. split; assumption.
Defined.

Lemma non_session_first_channel_witness :
  let tc := sample_conn [sample_forward; sample_session] in
  let r := handle no_md5 no_split (sample_server (MkChan [7%Z] false)) tc in
  handshake tc = Some ("Bob!!", None)
  /\ chans tc = MkChan [sample_forward; sample_session] true
  /\ ChannelType sample_forward <> "session"
  /\ server r = sample_server (MkChan [7%Z] false)
  /\ published (all_events r) = [].
Proof.
  intros tc r.
  assert (Ht : ChannelType sample_forward <> "session") by discriminate.
  split; [reflexivity |]. split; [reflexivity |]. split; [exact Ht |].
  destruct (non_session_first_channel no_md5 no_split
              (sample_server (MkChan [7%Z] false)) tc "Bob!!" None
              sample_forward [sample_session] true eq_refl eq_refl Ht)
    as (_ & _ & Hs & _ & _ & Hp).
  split; assumption.
Defined.

Lemma full_game_notice_witness :
  let tc := sample_conn [sample_session] in
  let s := sample_server (MkChan [] false) in
  let r := handle no_md5 no_split s tc in
  handshake tc = Some ("Bob!!", None)
  /\ chans tc = MkChan [sample_session] true
  /\ ChannelType sample_session = "session"
  /\ Accept sample_session = Some sample_requests
  /\ fst (draw (idPool s)) = 0%Z
  /\ main r = opening ++ [EvAccept sample_session;
                          EvWrite sample_session full_game; EvClose]
  /\ main_end r = Returned.
Proof.
  intros tc s r.
  do 5 (split; [reflexivity |]).
  destruct (proj2 (full_game_notice no_md5 no_split s tc "Bob!!" None
                     sample_session [] true sample_requests
                     eq_refl eq_refl eq_refl eq_refl) eq_refl)
    as (Hm & He & _).
  split; assumption.
Defined.

Lemma no_offer_nil_dereference_witness :
  let tc := sample_conn [] in
  handshake tc = Some ("Bob!!", None)
  /\ chans tc = MkChan [] true
  /\ main_end (handle no_md5 no_split (sample_server (MkChan [7%Z] false)) tc)
     = Panicked nil_dereference.
Proof.
  intros tc. split; [reflexivity |]. split; [reflexivity |].
  apply (no_offer_nil_dereference no_md5 no_split
           (sample_server (MkChan [7%Z] false)) tc "Bob!!" None
           eq_refl eq_refl).
Defined.

(** The offset [strlen+4] is a [byte]: with a length byte of 252 it wraps to
    0, and the dimensions are read from the head of the payload. *)
Example pty_req_offset_wraps :
  resizes (fst (serve {| ReqType := "pty-req"; WantReply := true;
                         Payload := [x00; x00; x00; xfc; x00; x00; x00; x50;
                                     x00; x00; x00; x18] |}))
  = [{| width := 252; height := 80 |}].
Proof. reflexivity. Qed.

(** * More about the name filter *)

Lemma first_info_lo (s0 : Z) (sz : nat) (lo hi : Z) :
  first_info s0 = Some (sz, (lo, hi)) -> (0x80 <= lo)%Z.
Proof.
  unfold first_info.
  repeat match goal with
  | |- context [if ?b then _ else _] => destruct b
  end; intros H; inversion H; lia.
Qed.

(** The bytes that a decoded rune spans beyond its first are not ASCII
    bytes. *)
Lemma decode_conts (a : ascii) (t : string) (r : Z) (w : nat) :
  DecodeRuneInString (String a t) = (r, w) -> conts (Nat.pred w) t = true.
Proof.
  unfold DecodeRuneInString.
  destruct (Z.ltb (code a) 0x80); [intros H; inversion H; reflexivity |].
  destruct (first_info (code a)) as [[sz [lo hi]] |] eqn:E;
    [| intros H; inversion H; reflexivity].
  apply first_info_lo in E.
  destruct t as [| a1 t1]; [intros H; inversion H; reflexivity |].
  destruct (in_range lo hi (code a1)) eqn:R1; cbn [negb];
    [| intros H; inversion H; reflexivity].
  apply in_range_spec in R1.
  assert (C1 : Z.leb 0x80 (code a1) = true) by (apply Z.leb_le; lia).
  destruct (Nat.leb sz 2).
  { intros H. inversion H. cbn [Nat.pred conts]. rewrite C1. reflexivity. }
  destruct t1 as [| a2 t2]; [intros H; inversion H; reflexivity |].
  destruct (cont (code a2)) eqn:R2; cbn [negb];
    [| intros H; inversion H; reflexivity].
  apply in_range_spec in R2.
  assert (C2 : Z.leb 0x80 (code a2) = true) by (apply Z.leb_le; lia).
  destruct (Nat.leb sz 3).
  { intros H. inversion H. cbn [Nat.pred conts]. rewrite C1, C2. reflexivity. }
  destruct t2 as [| a3 t3]; [intros H; inversion H; reflexivity |].
  destruct (cont (code a3)) eqn:R3; cbn [negb];
    [| intros H; inversion H; reflexivity].
  apply in_range_spec in R3.
  assert (C3 : Z.leb 0x80 (code a3) = true) by (apply Z.leb_le; lia).
  intros H. inversion H. cbn [Nat.pred conts]. rewrite C1, C2, C3. reflexivity.
Qed.

Lemma not_ascii_not_word (a : ascii) :
  Z.leb 0x80 (code a) = true -> word_byte a = false.
Proof.
  intros H. apply Z.leb_le in H.
  destruct (word_byte a) eqn:W; [| reflexivity].
  apply word_byte_ascii in W. lia.
Qed.

Lemma replace_from_word_bytes (s : string) :
  forall k, conts k s = true ->
            replace_from false k s = string_of_list_ascii (word_bytes s).
Proof.
  unfold word_bytes.
  induction s as [| a t IH]; intros k Hk; [reflexivity |].
  cbn [replace_from list_ascii_of_string List.filter].
  destruct k as [| k].
  - destruct (DecodeRuneInString (String a t)) as [r w] eqn:E.
    pose proof (decode_conts a t r w E) as Hc.
    destruct (is_word r) eqn:W.
    + destruct (decode_word a t r w E W) as [-> ->].
      unfold word_byte at 1. rewrite W. cbn [Nat.pred string_of_list_ascii].
      rewrite replace_from_keep, (IH 0%nat) by reflexivity. reflexivity.
    + assert (Wa : word_byte a = false).
      { destruct (word_byte a) eqn:Wa; [| reflexivity].
        rewrite (decode_ascii a t (word_byte_ascii a Wa)) in E.
        inversion E. subst. unfold word_byte in Wa. congruence. }
      rewrite Wa. apply IH. assumption.
  - cbn [conts] in Hk. apply andb_true_iff in Hk as [Ha Hk].
    rewrite (not_ascii_not_word a Ha). apply IH. assumption.
Qed.

(** X1.  Replacing every match of [\W] by nothing is the same as dropping
    every byte that is not an ASCII letter, digit or underscore: the decoding
    of UTF-8 never swallows a word byte and never lets another byte
    through. *)
Theorem filtername_keeps_word_bytes (s : string) :
  filtername_ReplaceAllString s = string_of_list_ascii (word_bytes s).
Proof. unfold filtername_ReplaceAllString. apply replace_from_word_bytes. reflexivity. Qed.

Lemma length_string_of_list_ascii (l : list ascii) :
  String.length (string_of_list_ascii l) = List.length l.
Proof. induction l as [| a l IH]; [reflexivity |]. cbn. rewrite IH. reflexivity. Qed.

Lemma filter_word_all (l : list ascii) : forallb word_byte (List.filter word_byte l) = true.
Proof.
  induction l as [| a l IH]; [reflexivity |]. cbn [List.filter].
  destruct (word_byte a) eqn:W; [| assumption].
  cbn [forallb]. rewrite W, IH. reflexivity.
Qed.

(** X2.  The name that [handle] computes from a user name is its first
    [maxlen] word bytes, in their order. *)
Theorem sanitize_first_word_bytes (sshName : string) :
  sanitize sshName
  = Ok (string_of_list_ascii (firstn maxlen (word_bytes sshName))).
Proof.
  unfold sanitize, filtername_ReplaceAllString.
  rewrite replace_from_word_bytes by reflexivity.
  set (l := word_bytes sshName).
  assert (W : forallb word_byte l = true) by apply filter_word_all.
  rewrite length_string_of_list_ascii.
  destruct (Nat.ltb_spec maxlen (List.length l)) as [Hlong | Hshort].
  - unfold slice_to.
    rewrite runes_all_word
      by (unfold all_word; rewrite list_ascii_of_string_of_list_ascii;
          assumption).
    rewrite list_ascii_of_string_of_list_ascii, length_map.
    destruct (Nat.leb_spec maxlen (List.length l)) as [_ | ?]; [| lia].
    cbn [go_bind]. rewrite List.firstn_map.
    rewrite string_of_runes_codes by (apply forallb_firstn; assumption).
    reflexivity.
  - rewrite firstn_all2 by assumption. reflexivity.
Qed.


Lemma filter_word_id (l : list ascii) :
  forallb word_byte l = true -> List.filter word_byte l = l.
Proof.
  induction l as [| a l IH]; [reflexivity |]. cbn [forallb List.filter].
  intros H. apply andb_true_iff in H as [-> Hl]. rewrite IH by assumption.
  reflexivity.
Qed.

(** A short name of word bytes is its own filtered name. *)
Lemma sanitize_fixpoint (name : string) :
  all_word name = true -> String.length name <= maxlen ->
  sanitize name = Ok name.
Proof.
  intros W L. unfold sanitize, filtername_ReplaceAllString.
  rewrite replace_from_word_bytes by reflexivity.
  unfold word_bytes. rewrite filter_word_id by exact W.
  rewrite string_of_list_ascii_of_string.
  destruct (Nat.ltb_spec maxlen (String.length name)); [lia | reflexivity].
Qed.

(** X3.  Filtering a name twice changes nothing more: the name computed for
    a user is itself a user name that the filter leaves as it is. *)
Theorem sanitize_idempotent (sshName name : string) :
  sanitize sshName = Ok name -> sanitize name = Ok name.
Proof.
  intros H. destruct (sanitize_ok sshName) as (n & E & W & L).
  rewrite E in H. inversion H. subst n.
  apply sanitize_fixpoint; assumption.
Qed.

Lemma sanitize_idempotent_witness :
  sanitize "Bob!!" = Ok "Bob" /\ sanitize "Bob" = Ok "Bob".
Proof.
  split; [reflexivity |]. apply (sanitize_idempotent "Bob!!" "Bob"). reflexivity.
Defined.

Lemma runes_from_length (s : string) :
  forall k, List.length (runes_from k s) <= String.length s.
Proof.
  induction s as [| a t IH]; intros k; [cbn; lia |].
  cbn [runes_from String.length]. destruct k as [| k].
  - destruct (DecodeRuneInString (String a t)) as [r w].
    cbn [List.length]. specialize (IH (Nat.pred w)). lia.
  - specialize (IH k). lia.
Qed.

(** X4.  A string never has more runes than bytes, valid UTF-8 or not:
    every rune decoded, an invalid one too, takes at least one byte. *)
Theorem rune_count_le_bytes (s : string) :
  RuneCountInString s <= String.length s.
Proof. apply runes_from_length. Qed.

(** * More about the dispatcher *)

Lemma serve_crashes (r : Request) :
  crashes r = true ->
  exists msg, serve r = ([EvLogf "[%s] response: %#v"], Some msg)
              /\ (msg = index_out_of_range \/ msg = slice_out_of_range).
Proof.
  unfold crashes, serve, index, slice_from.
  destruct (String.eqb (ReqType r) "pty-req") eqn:E; [| discriminate].
  apply String.eqb_eq in E. rewrite E. cbn [String.eqb Ascii.eqb Bool.eqb andb].
  destruct (nth_error (Payload r) 3) as [strlen |]; [| eauto].
  intros H. apply Nat.ltb_lt in H.
  destruct (Nat.leb_spec (Z.to_nat ((byte_val strlen + 4) mod 256))
              (List.length (Payload r))) as [? | _]; [lia | eauto].
Qed.

Lemma serve_safe (r : Request) :
  crashes r = false ->
  exists evs, serve r = (evs, None)
              /\ replies evs = (if wants_answer r then [(r, verdict r)] else []).
Proof.
  unfold crashes, wants_answer, verdict, serve, index, slice_from.
  destruct (String.eqb (ReqType r) "shell") eqn:E1.
  { apply String.eqb_eq in E1. rewrite E1. intros _. eexists. split; reflexivity. }
  destruct (String.eqb (ReqType r) "pty-req") eqn:E2.
  { apply String.eqb_eq in E2. rewrite E2. cbn [String.eqb Ascii.eqb Bool.eqb andb negb].
    destruct (nth_error (Payload r) 3) as [strlen |]; [| discriminate].
    intros H. apply Nat.ltb_ge in H.
    destruct (Nat.leb_spec (Z.to_nat ((byte_val strlen + 4) mod 256))
                (List.length (Payload r))) as [_ | ?]; [| lia].
    destruct (parseDims_total
                (skipn (Z.to_nat ((byte_val strlen + 4) mod 256)) (Payload r)))
      as [d ->].
    eexists. split; reflexivity. }
  intros _.
  destruct (String.eqb (ReqType r) "window-change") eqn:E3; cbn [negb].
  { destruct (parseDims_total (Payload r)) as [d ->].
    eexists. split; reflexivity. }
  eexists. split; reflexivity.
Qed.

(** X5.  A turn of the dispatcher panics exactly on a "pty-req" request
    whose payload has fewer than 4 bytes, or fewer bytes than the offset
    [(Payload[3] + 4) mod 256] computed from its fourth byte; no other
    request, of any type and payload, makes it panic. *)
Theorem serve_panics_iff (r : Request) :
  snd (serve r) <> None <-> crashes r = true.
Proof.
  split.
  - intros H. destruct (crashes r) eqn:C; [reflexivity |].
    destruct (serve_safe r C) as (evs & E & _). rewrite E in H.
    cbn in H. congruence.
  - intros C. destruct (serve_crashes r C) as (msg & E & _).
    rewrite E. discriminate.
Qed.

Lemma replies_app (e1 e2 : list Event) :
  replies (e1 ++ e2) = replies e1 ++ replies e2.
Proof. apply flat_map_app. Qed.

(** X6.  Over the whole request queue: the requests before the first one
    that panics are answered in their order of arrival, each one once,
    unless it is a "window-change", which is never answered; the answer is
    yes for a "shell" without payload and for a "pty-req", no for everything
    else.  The loop ends in a panic exactly when some request panics. *)
Theorem dispatch_replies (reqs : list Request) :
  replies (fst (dispatch reqs))
  = map (fun r => (r, verdict r)) (List.filter wants_answer (served reqs))
  /\ (snd (dispatch reqs) = None <-> existsb crashes reqs = false).
Proof.
  induction reqs as [| r reqs [IHr IHe]]; [split; [reflexivity | tauto] |].
  cbn [dispatch served existsb].
  destruct (crashes r) eqn:C.
  - destruct (serve_crashes r C) as (msg & -> & _). cbn.
    split; [reflexivity | split; discriminate].
  - destruct (serve_safe r C) as (evs & -> & R).
    destruct (dispatch reqs) as [evs' e]. cbn [fst snd orb] in *.
    rewrite replies_app, R, IHr. cbn [List.filter].
    destruct (wants_answer r); split; try reflexivity; exact IHe.
Qed.

(** X7.  A "pty-req" payload laid out as the protocol has it (a length of
    four bytes, the terminal name, the width and the height in characters as
    [uint32] values, then whatever follows) gives a resize event with that
    width and height and the answer yes, provided the name is shorter than
    252 bytes and as long as the lowest length byte says. *)
Theorem pty_req_decodes (r : Request) (l2 l1 l0 strlen : byte)
    (term : list byte) (w0 w1 w2 w3 h0 h1 h2 h3 : byte) (more : list byte) :
  ReqType r = "pty-req" ->
  Payload r = [l2; l1; l0; strlen] ++ term
              ++ [w0; w1; w2; w3; h0; h1; h2; h3] ++ more ->
  Z.of_nat (List.length term) = byte_val strlen ->
  (byte_val strlen < 252)%Z ->
  serve r = ([EvLogf "[%s] response: %#v";
              EvResize {| width := be32 w0 w1 w2 w3;
                          height := be32 h0 h1 h2 h3 |};
              EvLogf "replying ok to a %q request";
              EvReply r true], None).
Proof.
  intros Ht Hp Hl Hs.
  pose proof (byte_val_range strlen) as Rs.
  assert (Hlow : Z.to_nat ((byte_val strlen + 4) mod 256)
                 = (4 + List.length term)%nat).
  { rewrite Z.mod_small by lia. lia. }
  apply (serve_pty r strlen); try assumption.
  - rewrite Hp. reflexivity.
  - rewrite Hlow, Hp. rewrite !length_app. cbn [List.length]. lia.
  - rewrite Hlow, Hp.
    change ([l2; l1; l0; strlen] ++ term ++ ?x)
      with (l2 :: l1 :: l0 :: strlen :: (term ++ x)).
    cbn [Nat.add skipn].
    rewrite skipn_app, skipn_all, Nat.sub_diag. cbn [app skipn].
    apply parseDims_long.
Qed.

Lemma pty_req_decodes_witness :
  let r := {| ReqType := "pty-req"; WantReply := true;
              Payload := [x00; x00; x00; x02; x76; x74;
                          x00; x00; x00; x50; x00; x00; x00; x18; x00] |} in
  ReqType r = "pty-req"
  /\ Payload r = [x00; x00; x00; x02] ++ [x76; x74]
                 ++ [x00; x00; x00; x50; x00; x00; x00; x18] ++ [x00]
  /\ Z.of_nat (List.length [x76; x74]) = byte_val x02
  /\ (byte_val x02 < 252)%Z
  /\ resizes (fst (serve r)) = [{| width := 80; height := 24 |}].
Proof.
  intros r.
  assert (H252 : (byte_val x02 < 252)%Z) by (vm_compute; reflexivity).
  do 3 (split; [reflexivity |]). split; [exact H252 |].
  rewrite (pty_req_decodes r x00 x00 x00 x02 [x76; x74]
             x00 x00 x00 x50 x00 x00 x00 x18 [x00]
             eq_refl eq_refl eq_refl H252).
  reflexivity.
Defined.

(** X8.  A "window-change" request never panics and is never answered, with
    any payload: it forwards one resize event, 0 by 0 when the payload has
    fewer than 8 bytes, and otherwise the two big-endian values at its
    head. *)
Theorem window_change_forwards (r : Request) :
  ReqType r = "window-change" ->
  snd (serve r) = None
  /\ replies (fst (serve r)) = []
  /\ (List.length (Payload r) < 8 ->
      resizes (fst (serve r)) = [{| width := 0; height := 0 |}])
  /\ (forall (w0 w1 w2 w3 h0 h1 h2 h3 : byte) (more : list byte),
        Payload r = [w0; w1; w2; w3; h0; h1; h2; h3] ++ more ->
        resizes (fst (serve r))
        = [{| width := be32 w0 w1 w2 w3; height := be32 h0 h1 h2 h3 |}]).
Proof.
  intros Ht. destruct (serve_window_change r Ht) as (d & D & ->).
  cbn [fst snd]. repeat split.
  - intros L. rewrite (parseDims_short _ L) in D. inversion D. reflexivity.
  - intros w0 w1 w2 w3 h0 h1 h2 h3 more Hp. rewrite Hp in D.
    cbn [app] in D. rewrite parseDims_long in D. inversion D. reflexivity.
Qed.

Lemma window_change_forwards_witness :
  let r := {| ReqType := "window-change"; WantReply := false;
              Payload := [x00; x00; x00; x50] |} in
  ReqType r = "window-change" /\ List.length (Payload r) < 8
  /\ resizes (fst (serve r)) = [{| width := 0; height := 0 |}].
Proof.
  intros r. split; [reflexivity |]. split; [cbn; lia |].
  apply (window_change_forwards r eq_refl). cbn. lia.
Defined.

(** X9.  The two dimensions that [parseDims] returns are [uint32] values,
    and only the first 8 bytes of the buffer count: bytes after them change
    nothing. *)
Theorem parseDims_range_prefix (b : list byte) (d : resize) :
  parseDims b = Ok d ->
  (0 <= width d < 2 ^ 32)%Z /\ (0 <= height d < 2 ^ 32)%Z
  /\ (8 <= List.length b ->
      forall more : list byte, parseDims (b ++ more) = Ok d).
Proof.
  intros H.
  destruct (Nat.lt_ge_cases (List.length b) 8) as [Hlt | Hge].
  - rewrite (parseDims_short b Hlt) in H. inversion H. cbn.
    repeat split; try lia.
  - do 8 (destruct b as [| ? b]; [cbn in Hge; lia |]).
    rewrite parseDims_long in H. inversion H. cbn [width height].
    split; [apply be32_range |]. split; [apply be32_range |].
    intros _ more. cbn [app]. apply parseDims_long.
Qed.

Lemma parseDims_range_prefix_witness :
  parseDims [x00; x00; x00; x50; x00; x00; x00; x18]
  = Ok {| width := 80; height := 24 |}
  /\ 8 <= List.length [x00; x00; x00; x50; x00; x00; x00; x18]
  /\ parseDims ([x00; x00; x00; x50; x00; x00; x00; x18] ++ [xff; xff])
     = Ok {| width := 80; height := 24 |}.
Proof.
  split; [reflexivity |]. split; [cbn; lia |].
  apply (parseDims_range_prefix [x00; x00; x00; x50; x00; x00; x00; x18]
           {| width := 80; height := 24 |} eq_refl).
  cbn. lia.
Defined.

(** * More about the handler *)

Ltac quiet_helpers :=
  unfold all_events; cbn [main rejecting dispatching trace_of];
  rewrite ?accepted_app, ?published_app, ?registered_app;
  repeat match goal with
  | |- context [fst (rejecter ?q)] =>
      let A := fresh in let P := fresh in let R := fresh in
      destruct (helper_events_silent _ (rejecter_helper_events q))
        as (A & P & R);
      rewrite ?A, ?P, ?R; clear A P R
  | |- context [fst (dispatcher ?q)] =>
      let A := fresh in let P := fresh in let R := fresh in
      destruct (helper_events_silent _ (dispatcher_helper_events q))
        as (A & P & R);
      rewrite ?A, ?P, ?R; clear A P R
  end.

#[local] Set Warnings "-clear-no-such-hyp".

Section MoreHandlerFacts.

Variable md5_hex : list byte -> string.
Variable SplitHostPort : string -> option string.

(** The seven ways through [handle], each with the run it gives. *)
Lemma handle_shape (s : Server) (tc : TCPConn) :
  let r := handle md5_hex SplitHostPort s tc in
  (handshake tc = None
   /\ r = {| server := s;
             main := [EvLogf "new connection handshake failed (%s)"];
             main_end := Returned; rejecting := None; dispatching := None |})
  \/ exists user key name,
       handshake tc = Some (user, key) /\ sanitize user = Ok name
       /\ all_word name = true
       /\ (((chans tc = NilChan \/ chans tc = MkChan [] false)
            /\ r = {| server := s; main := [EvGo "DiscardRequests"];
                      main_end := Blocked; rejecting := None;
                      dispatching := None |})
           \/ (chans tc = MkChan [] true
               /\ r = {| server := s; main := opening;
                         main_end := Panicked nil_dereference;
                         rejecting := Some (rejecter (MkChan [] true));
                         dispatching := None |})
           \/ exists c rest cl,
                chans tc = MkChan (c :: rest) cl
                /\ ((ChannelType c <> "session"
                     /\ r = {| server := s;
                               main := opening
                                       ++ [EvReject c UnknownChannelType
                                             ("unknown channel type: "
                                              +:+ ChannelType c);
                                           EvClose];
                               main_end := Returned;
                               rejecting := Some (rejecter (MkChan rest cl));
                               dispatching := None |})
                    \/ (ChannelType c = "session" /\ Accept c = None
                        /\ r = {| server := s;
                                  main := opening
                                          ++ [EvLogf "could not accept channel (%s)";
                                              EvClose];
                                  main_end := Returned;
                                  rejecting := Some (rejecter (MkChan rest cl));
                                  dispatching := None |})
                    \/ exists reqs,
                         ChannelType c = "session" /\ Accept c = Some reqs
                         /\ r = enroll SplitHostPort s tc user
                                  (key_hash md5_hex key) name c reqs
                                  (opening ++ [EvAccept c])
                                  (Some (rejecter (MkChan rest cl))))).
Proof.
  cbv zeta. unfold handle.
  destruct (handshake tc) as [[user key] |] eqn:Hh; [right | left; auto].
  destruct (sanitize_ok user) as (name & Hsan & Hw & _).
  exists user, key, name. rewrite Hsan.
  split; [reflexivity |]. split; [reflexivity |]. split; [assumption |].
  destruct (chans tc) as [| [| c rest] cl] eqn:Hc; cbn [chan_recv].
  - left. auto.
  - destruct cl; [right; left | left]; auto.
  - right. right. exists c, rest, cl. split; [reflexivity |].
    unfold first_offer.
    destruct (String.eqb (ChannelType c) "session") eqn:Ht; cbn [negb].
    + apply String.eqb_eq in Ht.
      destruct (Accept c) as [reqs |] eqn:Ha.
      * right. right. exists reqs. auto.
      * right. left. auto.
    + apply String.eqb_neq in Ht. left. auto.
Qed.

(** The two ways through [enroll]. *)
Lemma enroll_shape (s : Server) (tc : TCPConn) (user : string)
    (key : option (list byte)) (name : string) (c : NewChannel)
    (reqs : Chan Request) (rej : option (list Event * outcome)) :
  let r := enroll SplitHostPort s tc user (key_hash md5_hex key) name c reqs
             (opening ++ [EvAccept c]) rej in
  let id := fst (draw (idPool s)) in
  let s1 := set_idPool s (snd (draw (idPool s))) in
  (id = 0%Z
   /\ r = {| server := s1;
             main := opening ++ [EvAccept c; EvWrite c full_game; EvClose];
             main_end := Returned; rejecting := rej; dispatching := None |})
  \/ (id <> 0%Z
      /\ let p := session_of md5_hex SplitHostPort tc user key name id c in
         let s2 := set_onlinePlayers s1 (<[Name p := p]> (onlinePlayers s)) in
         let started :=
           opening ++ [EvAccept c;
                       EvLogf "Creating new player %q: id: %d, hash: %s";
                       EvRegister p] ++ starting in
         r = match chan_send (newPlayers s) p with
             | Sent q =>
                 {| server := set_newPlayers s2 q;
                    main := started ++ [EvPublish p];
                    main_end := Returned; rejecting := rej;
                    dispatching := Some (dispatcher reqs) |}
             | SendBlocks =>
                 {| server := s2; main := started; main_end := Blocked;
                    rejecting := rej; dispatching := Some (dispatcher reqs) |}
             | SendPanics =>
                 {| server := s2; main := started;
                    main_end := Panicked send_on_closed;
                    rejecting := rej; dispatching := Some (dispatcher reqs) |}
             end).
Proof.
  cbv zeta. unfold enroll.
  destruct (draw (idPool s)) as [id pool']. cbn [fst snd].
  destruct (Z.eqb_spec id 0) as [-> | Hid]; [left; auto |].
  right. split; [assumption |].
  cbn [newPlayers set_onlinePlayers set_idPool onlinePlayers].
  destruct (chan_send (newPlayers s) _); reflexivity.
Qed.

Lemma draw_takes_head (pool : Chan ID) :
  fst (draw pool) <> 0%Z ->
  pending_of pool = fst (draw pool) :: pending_of (snd (draw pool)).
Proof.
  destruct pool as [| [| v q] cl]; cbn; try congruence.
  destruct cl; cbn; congruence.
Qed.

Lemma draw_pending (pool : Chan ID) :
  pending_of (snd (draw pool)) = tl (pending_of pool).
Proof. destruct pool as [| [| v q] [|]]; reflexivity. Qed.

Lemma default_name_not_empty (name : string) (id : ID) :
  default_name name id <> "".
Proof.
  unfold default_name. destruct (String.eqb_spec name ""); [| assumption].
  discriminate.
Qed.

(** What a handler does to the shared state and which session it
    registers. *)
Lemma handle_registers (s : Server) (tc : TCPConn) :
  let r := handle md5_hex SplitHostPort s tc in
  (registered (all_events r) = []
   /\ onlinePlayers (server r) = onlinePlayers s
   /\ dispatching r = None
   /\ (accepted (all_events r) = [] -> server r = s))
  \/ exists p key name reqs,
       registered (all_events r) = [p]
       /\ onlinePlayers (server r) = <[Name p := p]> (onlinePlayers s)
       /\ handshake tc = Some (SSHName p, key)
       /\ sanitize (SSHName p) = Ok name
       /\ Name p = default_name name (pid p)
       /\ pid p <> 0%Z
       /\ pending_of (idPool s) = pid p :: pending_of (idPool (server r))
       /\ accepted (all_events r) = [conn p]
       /\ Accept (conn p) = Some reqs
       /\ dispatching r = Some (dispatcher reqs).
Proof.
  pose proof (handle_shape s tc) as H. cbv zeta in *.
  destruct H as
    [[Hh ->] | (user & key & name & Hh & Hsan & Hw &
       [[Hc ->] | [[Hc ->] | (c & rest & cl & Hc &
          [[Ht ->] | [(Ht & Ha & ->) | (reqs & Ht & Ha & ->)]])]])];
    try (left; repeat split; quiet_helpers; reflexivity).
  pose proof (enroll_shape s tc user key name c reqs
                (Some (rejecter (MkChan rest cl)))) as E.
  cbv zeta in E. destruct E as [[Hid ->] | [Hid ->]].
  - left. repeat split; try (quiet_helpers; reflexivity).
    quiet_helpers. discriminate.
  - right.
    exists (session_of md5_hex SplitHostPort tc user key name
              (fst (draw (idPool s))) c), key, name, reqs.
    pose proof (draw_takes_head (idPool s) Hid) as Hp.
    destruct (chan_send (newPlayers s) _);
      cbn [server main set_newPlayers set_onlinePlayers set_idPool
           onlinePlayers idPool dispatching];
      (repeat split; try assumption; try reflexivity;
       quiet_helpers; reflexivity).
Qed.

(** X10.  Unless it accepts a channel, a handler leaves the server as it
    found it, whatever the peer sends: the pool, the registry and the queue
    are untouched, and no dispatcher is started. *)
Theorem no_accept_no_change (s : Server) (tc : TCPConn) :
  accepted (all_events (handle md5_hex SplitHostPort s tc)) = [] ->
  server (handle md5_hex SplitHostPort s tc) = s
  /\ registered (all_events (handle md5_hex SplitHostPort s tc)) = []
  /\ dispatching (handle md5_hex SplitHostPort s tc) = None.
Proof.
  intros Hacc. pose proof (handle_registers s tc) as H. cbv zeta in H.
  destruct H as [(R & _ & D & S) | (p & key & name & reqs & _ & _ & _ & _
                                     & _ & _ & _ & A & _)].
  - auto.
  - rewrite A in Hacc. discriminate.
Qed.

(** X11.  A handler registers at most one session, and a session it
    registers has: the identity at the head of the pool, which is not the
    sentinel 0 and leaves the pool; the user name of the handshake as raw
    name; as display name the filtered user name, or the fallback when that
    is empty, so never the empty string; the accepted channel as stream. *)
Theorem registered_session (s : Server) (tc : TCPConn) (p : Player) :
  In p (registered (all_events (handle md5_hex SplitHostPort s tc))) ->
  registered (all_events (handle md5_hex SplitHostPort s tc)) = [p]
  /\ pid p <> 0%Z
  /\ pending_of (idPool s)
     = pid p :: pending_of (idPool (server (handle md5_hex SplitHostPort s tc)))
  /\ (exists key, handshake tc = Some (SSHName p, key))
  /\ (exists name, sanitize (SSHName p) = Ok name
                   /\ Name p = default_name name (pid p))
  /\ Name p <> ""
  /\ accepted (all_events (handle md5_hex SplitHostPort s tc)) = [conn p]
  /\ (exists reqs,
        Accept (conn p) = Some reqs
        /\ dispatching (handle md5_hex SplitHostPort s tc)
           = Some (dispatcher reqs)).
Proof.
  intros Hin. pose proof (handle_registers s tc) as H. cbv zeta in H.
  destruct H as [(R & _) | (p' & key & name & reqs & R & _ & Hh & Hs & Hn
                            & Hid & Hp & A & Ha & D)].
  - rewrite R in Hin. destruct Hin.
  - rewrite R in Hin. destruct Hin as [<- | []].
    repeat split; eauto.
    rewrite Hn. apply default_name_not_empty.
Qed.

(** X12.  A handler never removes a session from the registry and changes
    at most one key.  When it registers a session, that session is found
    under its display name afterwards, every other key is as before, and a
    session already registered under that name is replaced: the registry
    does not grow. *)
Theorem registry_update (s : Server) (tc : TCPConn) :
  let m := onlinePlayers s in
  let m' := onlinePlayers (server (handle md5_hex SplitHostPort s tc)) in
  (forall k, is_Some (m !! k) -> is_Some (m' !! k))
  /\ size m <= size m' <= S (size m)
  /\ forall p,
       In p (registered (all_events (handle md5_hex SplitHostPort s tc))) ->
       m' !! Name p = Some p
       /\ (forall k, k <> Name p -> m' !! k = m !! k)
       /\ (is_Some (m !! Name p) -> size m' = size m).
Proof.
  cbv zeta. pose proof (handle_registers s tc) as H. cbv zeta in H.
  destruct H as [(R & -> & _) | (p' & key & name & reqs & R & -> & _)].
  - split; [auto |]. split; [lia |]. intros p Hin. rewrite R in Hin.
    destruct Hin.
  - split.
    { intros k Hk. destruct (decide (Name p' = k)) as [<- | Hne].
      - rewrite lookup_insert_eq. eauto.
      - rewrite lookup_insert_ne by assumption. assumption. }
    split.
    { rewrite map_size_insert. destruct (onlinePlayers s !! Name p'); cbn; lia. }
    intros p Hin. rewrite R in Hin. destruct Hin as [<- | []].
    split; [apply lookup_insert_eq |]. split.
    + intros k Hne. apply lookup_insert_ne. congruence.
    + apply map_size_insert_Some.
Qed.

(** X13.  The handler's own flow panics in two cases and no other: the
    offers are closed before the first one (a nil dereference), or a session
    is registered and the hand-off queue is closed.  And it waits for ever
    whenever no offer comes on offers that stay open, and whenever a session
    is registered and the hand-off queue is nil. *)
Theorem handler_end (s : Server) (tc : TCPConn) :
  let r := handle md5_hex SplitHostPort s tc in
  (forall msg,
     main_end r = Panicked msg <->
     (handshake tc <> None /\ chans tc = MkChan [] true
      /\ msg = nil_dereference)
     \/ (registered (all_events r) <> []
         /\ (exists q, newPlayers s = MkChan q true)
         /\ msg = send_on_closed))
  /\ ((handshake tc <> None
       /\ (chans tc = NilChan \/ chans tc = MkChan [] false))
      \/ (registered (all_events r) <> [] /\ newPlayers s = NilChan) ->
      main_end r = Blocked).
Proof.
  pose proof (handle_shape s tc) as H. cbv zeta in *.
  destruct H as
    [[Hh ->] | (user & key & name & Hh & Hsan & Hw &
       [[Hc ->] | [[Hc ->] | (c & rest & cl & Hc &
          [[Ht ->] | [(Ht & Ha & ->) | (reqs & Ht & Ha & ->)]])]])].
  6: {
    pose proof (enroll_shape s tc user key name c reqs
                  (Some (rejecter (MkChan rest cl)))) as E.
    cbv zeta in E. destruct E as [[Hid ->] | [Hid ->]].
    - quiet_helpers. cbn. rewrite Hh, Hc. naive_solver.
    - destruct (newPlayers s) as [| q [|]] eqn:Hq; cbn [chan_send];
        quiet_helpers; cbn; rewrite Hh, Hc; naive_solver. }
  all: quiet_helpers; cbn; rewrite ?Hh, ?Hc; try destruct Hc as [Hc | Hc];
    rewrite ?Hc; naive_solver.
Qed.

(** What a handler takes off the pool. *)
Lemma handle_pool (s : Server) (tc : TCPConn) :
  let r := handle md5_hex SplitHostPort s tc in
  (server r = s /\ accepted (all_events r) = [])
  \/ (accepted (all_events r) <> []
      /\ idPool (server r) = snd (draw (idPool s))
      /\ (fst (draw (idPool s)) = 0%Z ->
          server r = set_idPool s (snd (draw (idPool s)))
          /\ exists c, accepted (all_events r) = [c]
                       /\ In (EvWrite c full_game) (main r))).
Proof.
  pose proof (handle_shape s tc) as H. cbv zeta in *.
  destruct H as
    [[Hh ->] | (user & key & name & Hh & Hsan & Hw &
       [[Hc ->] | [[Hc ->] | (c & rest & cl & Hc &
          [[Ht ->] | [(Ht & Ha & ->) | (reqs & Ht & Ha & ->)]])]])];
    try (left; split; [reflexivity | quiet_helpers; reflexivity]).
  right.
  pose proof (enroll_shape s tc user key name c reqs
                (Some (rejecter (MkChan rest cl)))) as E.
  cbv zeta in E. destruct E as [[Hid ->] | [Hid ->]].
  - quiet_helpers. cbn. split; [discriminate |]. split; [reflexivity |].
    intros _. split; [reflexivity |]. exists c. split; [reflexivity |].
    right. right. right. left. reflexivity.
  - destruct (chan_send (newPlayers s) _); quiet_helpers; cbn;
      (split; [discriminate |]); (split; [reflexivity |]); intros H0;
      congruence.
Qed.

Lemma set_idPool_same (s : Server) : set_idPool s (idPool s) = s.
Proof. destruct s; reflexivity. Qed.

(** X14.  A handler takes at most one identity off the pool, the one at
    its head, and none unless it accepted a channel. *)
Theorem one_identity_per_handler (s : Server) (tc : TCPConn) :
  let r := handle md5_hex SplitHostPort s tc in
  (pending_of (idPool (server r)) = pending_of (idPool s)
   \/ pending_of (idPool (server r)) = tl (pending_of (idPool s)))
  /\ (accepted (all_events r) = [] ->
      pending_of (idPool (server r)) = pending_of (idPool s)).
Proof.
  pose proof (handle_pool s tc) as H. cbv zeta in *.
  destruct H as [[-> _] | (A & -> & _)]; [auto |].
  rewrite draw_pending. split; [auto | congruence].
Qed.

(** X15.  Once nothing is left in the pool, be it nil, empty or closed, no
    connection changes the server any more, however many come, and every
    handler that accepts a channel writes the notice on it. *)
Theorem exhausted_pool_refuses (s : Server) (tcs : list TCPConn) :
  pending_of (idPool s) = [] ->
  handle_all md5_hex SplitHostPort s tcs = s
  /\ forall tc,
       let r := handle md5_hex SplitHostPort s tc in
       server r = s
       /\ registered (all_events r) = []
       /\ (accepted (all_events r) <> [] ->
           exists c, accepted (all_events r) = [c]
                     /\ In (EvWrite c full_game) (main r)).
Proof.
  intros Hp.
  assert (Hd : draw (idPool s) = (0%Z, idPool s)).
  { apply draw_nothing_ready.
    destruct (idPool s) as [| q cl]; [auto |]. cbn in Hp. subst. eauto. }
  assert (Hone : forall tc,
             let r := handle md5_hex SplitHostPort s tc in
             server r = s
             /\ registered (all_events r) = []
             /\ (accepted (all_events r) <> [] ->
                 exists c, accepted (all_events r) = [c]
                           /\ In (EvWrite c full_game) (main r))).
  { intros tc. cbv zeta.
    pose proof (handle_pool s tc) as H. cbv zeta in H. rewrite Hd in H.
    cbn [fst snd] in H. rewrite set_idPool_same in H.
    pose proof (handle_registers s tc) as R. cbv zeta in R.
    destruct R as [(R & _) | (p & key & name & reqs & _ & _ & _ & _ & _
                              & Hid & Hpend & _)].
    - destruct H as [[Hs A] | (A & _ & F)].
      + split; [assumption |]. split; [assumption |]. tauto.
      + destruct (F eq_refl) as [Hs Hw]. auto.
    - rewrite Hp in Hpend. discriminate. }
  split; [| exact Hone].
  induction tcs as [| tc tcs IH]; [reflexivity |].
  unfold handle_all in *. cbn [fold_left].
  rewrite (proj1 (Hone tc)). exact IH.
Qed.

Lemma handle_fingerprint (s : Server) (tc : TCPConn) (p : Player) :
  In p (registered (all_events (handle md5_hex SplitHostPort s tc))) ->
  exists key,
    handshake tc = Some (SSHName p, key)
    /\ Fingerprint p = fallback_hash SplitHostPort (key_hash md5_hex key) tc.
Proof.
  pose proof (handle_shape s tc) as H. cbv zeta in *.
  destruct H as
    [[Hh ->] | (user & key & name & Hh & Hsan & Hw &
       [[Hc ->] | [[Hc ->] | (c & rest & cl & Hc &
          [[Ht ->] | [(Ht & Ha & ->) | (reqs & Ht & Ha & ->)]])]])];
    try (quiet_helpers; cbn; tauto).
  pose proof (enroll_shape s tc user key name c reqs
                (Some (rejecter (MkChan rest cl)))) as E.
  cbv zeta in E. destruct E as [[Hid ->] | [Hid ->]];
    [quiet_helpers; cbn; tauto |].
  destruct (chan_send (newPlayers s) _); quiet_helpers; cbn;
    (intros [<- | []]; exists key; split; [assumption | reflexivity]).
Qed.

(** What a handler leaves alone, and what it adds to the queue. *)
Lemma handle_frame (s : Server) (tc : TCPConn) :
  let r := handle md5_hex SplitHostPort s tc in
  port (server r) = port s /\ addresses (server r) = addresses s
  /\ privateKey (server r) = privateKey s /\ lines (server r) = lines s
  /\ Events (server r) = Events s
  /\ pending_of (newPlayers (server r))
     = pending_of (newPlayers s) ++ published (all_events r)
  /\ (newPlayers s = NilChan ->
      newPlayers (server r) = NilChan
      /\ (registered (all_events r) <> [] -> main_end r = Blocked))
  /\ (published (all_events r) = []
      \/ (published (all_events r) = registered (all_events r)
          /\ exists q, newPlayers s = MkChan q false)).
Proof.
  pose proof (handle_shape s tc) as H. cbv zeta in *.
  destruct H as
    [[Hh ->] | (user & key & name & Hh & Hsan & Hw &
       [[Hc ->] | [[Hc ->] | (c & rest & cl & Hc &
          [[Ht ->] | [(Ht & Ha & ->) | (reqs & Ht & Ha & ->)]])]])];
    try (quiet_helpers; cbn; rewrite app_nil_r; repeat split; auto;
         congruence).
  pose proof (enroll_shape s tc user key name c reqs
                (Some (rejecter (MkChan rest cl)))) as E.
  cbv zeta in E. destruct E as [[Hid ->] | [Hid ->]].
  - quiet_helpers. cbn. rewrite app_nil_r. repeat split; auto; congruence.
  - destruct (newPlayers s) as [| q [|]] eqn:Hq; cbn [chan_send];
      quiet_helpers; cbn; rewrite ?Hq; cbn; rewrite ?app_nil_r;
      (do 6 (split; [reflexivity |]));
      (split; [intros Hn; first [discriminate Hn | split; reflexivity] |]).
    + left. reflexivity.
    + left. reflexivity.
    + right. split; [reflexivity |]. exists q. reflexivity.
Qed.

(** X26.  A handler changes nothing of the server but the pool, the
    registry and the hand-off queue, and the queue grows by exactly the
    sessions published: none, or the one session registered, and that only
    on a queue that is made and open. *)
Theorem handler_frame (s : Server) (tc : TCPConn) :
  let r := handle md5_hex SplitHostPort s tc in
  port (server r) = port s /\ addresses (server r) = addresses s
  /\ privateKey (server r) = privateKey s /\ lines (server r) = lines s
  /\ Events (server r) = Events s
  /\ pending_of (newPlayers (server r))
     = pending_of (newPlayers s) ++ published (all_events r)
  /\ (published (all_events r) = []
      \/ (published (all_events r) = registered (all_events r)
          /\ exists q, newPlayers s = MkChan q false)).
Proof.
  pose proof (handle_frame s tc) as H. cbv zeta in *.
  destruct H as (H1 & H2 & H3 & H4 & H5 & H6 & _ & H8). auto 10.
Qed.

(** X27.  On a server whose hand-off queue is nil, as [NewServer] leaves
    it, no handler ever publishes a session: not the first one and not one
    after any number of connections; each one that registers a session waits
    for ever on its send. *)
Theorem nil_queue_never_publishes (s : Server) (tcs : list TCPConn)
    (tc : TCPConn) :
  newPlayers s = NilChan ->
  let s' := handle_all md5_hex SplitHostPort s tcs in
  let r := handle md5_hex SplitHostPort s' tc in
  newPlayers s' = NilChan
  /\ published (all_events r) = []
  /\ (registered (all_events r) <> [] -> main_end r = Blocked).
Proof.
  intros Hq. cbv zeta.
  assert (Hq' : newPlayers (handle_all md5_hex SplitHostPort s tcs) = NilChan).
  { unfold handle_all. revert s Hq.
    induction tcs as [| tc' tcs IH]; intros s Hq; [exact Hq |].
    cbn [fold_left]. apply IH.
    pose proof (handle_frame s tc') as H. cbv zeta in H.
    destruct H as (_ & _ & _ & _ & _ & _ & Hn & _). apply Hn. exact Hq. }
  split; [exact Hq' |].
  set (s' := handle_all md5_hex SplitHostPort s tcs) in *.
  pose proof (handle_frame s' tc) as F. cbv zeta in F.
  destruct F as (_ & _ & _ & _ & _ & _ & Hn & [P | (_ & q & Hm)]);
    [| congruence].
  split; [exact P |]. apply Hn. exact Hq'.
Qed.

End MoreHandlerFacts.

(** * Many draws, many connections *)

(** X16.  Draws one after the other hand out the identities of the pool in
    their order, each one once, and the sentinel 0 from then on, for ever,
    whether the pool was closed or not; a nil pool gives 0 only. *)
Theorem draws_in_order (n : nat) (q : list ID) (cl : bool) :
  draws n (MkChan q cl)
  = (firstn n q ++ repeat 0%Z (n - List.length q), MkChan (skipn n q) cl)
  /\ draws n NilChan = (repeat 0%Z n, NilChan).
Proof.
  split.
  - revert q. induction n as [| n IH]; intros q; [reflexivity |].
    cbn [draws]. destruct q as [| v q].
    + assert (Hd : draw (MkChan [] cl) = (0%Z, MkChan [] cl))
        by (destruct cl; reflexivity).
      rewrite Hd, (IH []). cbn [List.length firstn skipn app Nat.sub].
      rewrite Nat.sub_0_r. destruct n; reflexivity.
    + cbn [draw chan_recv]. rewrite (IH q). reflexivity.
  - induction n as [| n IH]; [reflexivity |].
    cbn [draws draw chan_recv]. rewrite IH. reflexivity.
Qed.

Lemma NoDup_app_apart {A : Type} (l1 l2 : list A) (x : A) :
  List.NoDup (l1 ++ l2) -> In x l1 -> ~ In x l2.
Proof.
  induction l1 as [| a l1 IH]; intros Hnd Hin; [destruct Hin |].
  cbn in Hnd. inversion Hnd as [| ? ? Hna Hnd']. subst.
  destruct Hin as [-> | Hin].
  - intros Hx. apply Hna. apply in_or_app. right. assumption.
  - apply IH; assumption.
Qed.

Section ManyHandlers.

Variable md5_hex : list byte -> string.
Variable SplitHostPort : string -> option string.

Lemma identities_taken_step (s0 s : Server) (tc : TCPConn) :
  List.NoDup (pending_of (idPool s0)) ->
  identities_taken s0 s ->
  identities_taken s0 (server (handle md5_hex SplitHostPort s tc)).
Proof.
  intros Hnd (used & Hu & Hreg & Hinj).
  pose proof (handle_registers md5_hex SplitHostPort s tc) as R.
  pose proof (handle_pool md5_hex SplitHostPort s tc) as P.
  cbv zeta in R, P.
  destruct R as [(_ & Hm & _) | (p & key & name & reqs & _ & Hm & _ & _ & Hn
                                 & Hid & Hpend & _)].
  - assert (Hp : exists taken,
               pending_of (idPool s)
               = taken ++ pending_of
                            (idPool (server (handle md5_hex SplitHostPort s tc)))).
    { destruct P as [[-> _] | (_ & -> & _)]; [exists []; reflexivity |].
      rewrite draw_pending.
      destruct (pending_of (idPool s)) as [| v q];
        [exists [] | exists [v]]; reflexivity. }
    destruct Hp as [taken Hp]. exists (used ++ taken).
    rewrite Hm. split; [rewrite Hu, Hp, app_assoc; reflexivity |].
    split; [| exact Hinj].
    intros k q Hk. destruct (Hreg k q Hk) as (? & ? & ?).
    repeat split; try assumption. apply in_or_app. left. assumption.
  - exists (used ++ [pid p]). rewrite Hm.
    assert (Hfresh : forall k q, onlinePlayers s !! k = Some q -> pid q <> pid p).
    { intros k q Hk Heq. destruct (Hreg k q Hk) as (_ & _ & Hin).
      rewrite Hu, Hpend in Hnd.
      apply (NoDup_app_apart used _ (pid q) Hnd Hin).
      rewrite Heq. left. reflexivity. }
    split; [rewrite Hu, Hpend, <- app_assoc; reflexivity |].
    split.
    + intros k q Hk. destruct (decide (Name p = k)) as [<- | Hne].
      * rewrite lookup_insert_eq in Hk. inversion Hk. subst q.
        repeat split; try assumption. apply in_or_app. right. left. reflexivity.
      * rewrite lookup_insert_ne in Hk by assumption.
        destruct (Hreg k q Hk) as (? & ? & ?).
        repeat split; try assumption. apply in_or_app. left. assumption.
    + intros k k' q q' Hk Hk' Heq.
      destruct (decide (Name p = k)) as [<- | Hne];
        destruct (decide (Name p = k')) as [<- | Hne']; try reflexivity.
      * rewrite lookup_insert_eq in Hk. inversion Hk. subst q.
        rewrite lookup_insert_ne in Hk' by assumption.
        exfalso. apply (Hfresh k' q' Hk'). congruence.
      * rewrite lookup_insert_eq in Hk'. inversion Hk'. subst q'.
        rewrite lookup_insert_ne in Hk by assumption.
        exfalso. apply (Hfresh k q Hk). congruence.
      * rewrite lookup_insert_ne in Hk, Hk' by assumption. eauto.
Qed.

(** X17.  Start from a server with an empty registry and a pool without
    repetition, and let the handlers of any connections run one after the
    other.  Then every session in the registry is stored under its own
    display name and holds an identity of the pool that is not 0, that has
    left the pool, and that no other registered session holds. *)
Theorem identities_never_shared (s0 : Server) (tcs : list TCPConn) :
  List.NoDup (pending_of (idPool s0)) -> onlinePlayers s0 = ∅ ->
  let s := handle_all md5_hex SplitHostPort s0 tcs in
  (forall k p, onlinePlayers s !! k = Some p ->
               Name p = k /\ pid p <> 0%Z
               /\ In (pid p) (pending_of (idPool s0))
               /\ ~ In (pid p) (pending_of (idPool s)))
  /\ (forall k k' p p',
        onlinePlayers s !! k = Some p -> onlinePlayers s !! k' = Some p' ->
        pid p = pid p' -> k = k').
Proof.
  intros Hnd Hempty. cbv zeta.
  assert (Hinv : identities_taken s0 (handle_all md5_hex SplitHostPort s0 tcs)).
  { unfold handle_all.
    assert (H0 : identities_taken s0 s0).
    { exists []. split; [reflexivity |]. rewrite Hempty.
      split; intros; rewrite lookup_empty in *; discriminate. }
    revert H0. generalize s0 at 2 4. induction tcs as [| tc tcs IH];
      intros s H0; [exact H0 |].
    cbn [fold_left]. apply IH. apply identities_taken_step; assumption. }
  destruct Hinv as (used & Hu & Hreg & Hinj). split; [| exact Hinj].
  intros k p Hk. destruct (Hreg k p Hk) as (Hn & Hid & Hin).
  repeat split; try assumption.
  - rewrite Hu. apply in_or_app. left. assumption.
  - rewrite Hu in Hnd. apply (NoDup_app_apart used _ (pid p) Hnd Hin).
Qed.

End ManyHandlers.

(** * Names, addresses, fingerprints *)

(** X18.  Two sessions get the same display name only when their filtered
    user names are the same and not empty, or when both are empty and the
    identities are the same: a fallback name is taken by no user name, since
    the filter lets no hyphen through, and by no other identity. *)
Theorem display_names_apart (n n' : string) (id id' : ID) :
  all_word n = true -> all_word n' = true ->
  default_name n id = default_name n' id' ->
  (n = n' /\ n <> "") \/ (n = "" /\ n' = "" /\ id = id').
Proof.
  intros W W'. unfold default_name.
  destruct (String.eqb_spec n "") as [-> | Hn];
    destruct (String.eqb_spec n' "") as [-> | Hn']; intros H.
  - right. split; [reflexivity |]. split; [reflexivity |].
    cbn in H. inversion H as [Hp]. apply (inj pretty). exact Hp.
  - exfalso. rewrite <- H in W'. cbn in W'. discriminate.
  - exfalso. rewrite H in W. cbn in W. discriminate.
  - left. auto.
Qed.

Lemma display_names_apart_witness :
  all_word "" = true /\ all_word "" = true
  /\ default_name "" 3%Z = default_name "" 3%Z
  /\ (("" = "" /\ "" <> "") \/ ("" = "" /\ "" = "" /\ 3%Z = 3%Z)).
Proof.
  do 3 (split; [reflexivity |]).
  apply (display_names_apart "" "" 3%Z 3%Z eq_refl eq_refl eq_refl).
Defined.

Lemma append_assoc_s (a b c : string) : (a +:+ b) +:+ c = a +:+ (b +:+ c).
Proof.
  induction a as [| x a IH]; [reflexivity |].
  change (String x ((a +:+ b) +:+ c) = String x (a +:+ (b +:+ c))).
  rewrite IH. reflexivity.
Qed.

Lemma digits_split (s : string) :
  s = fst (digits s) +:+ snd (digits s)
  /\ all_digits (fst (digits s)) = true
  /\ starts_with_digit (snd (digits s)) = false.
Proof.
  induction s as [| a t (IH1 & IH2 & IH3)]; [auto |].
  cbn [digits]. destruct (is_digit a) eqn:D.
  - destruct (digits t) as [d r]. cbn [fst snd] in *.
    split; [change (String a t = String a (d +:+ r)); f_equal; exact IH1 |].
    split; [| assumption].
    unfold all_digits in *. cbn [list_ascii_of_string forallb].
    rewrite D, IH2. reflexivity.
  - cbn [fst snd starts_with_digit]. auto.
Qed.

Lemma digits_app (d r : string) :
  all_digits d = true -> starts_with_digit r = false ->
  digits (d +:+ r) = (d, r).
Proof.
  unfold all_digits. induction d as [| a d IH]; intros Hd Hr.
  - change (EmptyString +:+ r) with r. destruct r as [| b r]; [reflexivity |].
    cbn [starts_with_digit] in Hr. cbn [digits]. rewrite Hr. reflexivity.
  - cbn [list_ascii_of_string forallb] in Hd.
    apply andb_true_iff in Hd as [Ha Hd].
    change (String a d +:+ r) with (String a (d +:+ r)).
    cbn [digits]. rewrite Ha, (IH Hd Hr). reflexivity.
Qed.

Lemma digits_dot_split (s d r : string) :
  digits_dot s = Some (d, r) ->
  exists n, d = n +:+ "." /\ all_digits n = true /\ n <> ""
            /\ s = d +:+ r.
Proof.
  unfold digits_dot, digits1.
  destruct (digits_split s) as (E & D & _).
  destruct (digits s) as [n t]. cbn [fst snd] in *.
  destruct n as [| a n]; [discriminate |].
  destruct t as [| b t]; [discriminate |].
  destruct (Ascii.eqb_spec b ".") as [-> | Hb].
  - intros H. inversion H. subst d r. exists (String a n).
    split; [reflexivity |]. split; [assumption |]. split; [discriminate |].
    rewrite E, append_assoc_s. reflexivity.
  - intros H. exfalso.
    destruct b as [[] [] [] [] [] [] [] []]; try discriminate H.
    apply Hb. reflexivity.
Qed.

Lemma digits_dot_app (n r : string) :
  all_digits n = true -> n <> "" ->
  digits_dot (n +:+ "." +:+ r) = Some (n +:+ ".", r).
Proof.
  intros Hn Hne. unfold digits_dot, digits1.
  rewrite (digits_app n ("." +:+ r) Hn eq_refl).
  destruct n as [| a n]; [congruence | reflexivity].
Qed.

(** X19.  Whatever [matchip] finds is the head of the address, made of four
    runs of decimal digits, none empty, with a dot between them, and it
    takes all the digits of the last run; the digits may spell any number,
    also one above 255. *)
Theorem matchip_finds_dotted_quad (s m : string) :
  matchip_FindString s = m -> m <> "" ->
  exists d1 d2 d3 d4 rest,
    m = d1 +:+ "." +:+ d2 +:+ "." +:+ d3 +:+ "." +:+ d4
    /\ s = m +:+ rest
    /\ all_digits d1 = true /\ d1 <> ""
    /\ all_digits d2 = true /\ d2 <> ""
    /\ all_digits d3 = true /\ d3 <> ""
    /\ all_digits d4 = true /\ d4 <> ""
    /\ starts_with_digit rest = false.
Proof.
  unfold matchip_FindString.
  destruct (digits_dot s) as [[a r1] |] eqn:E1; [| congruence].
  destruct (digits_dot r1) as [[b r2] |] eqn:E2; [| congruence].
  destruct (digits_dot r2) as [[c r3] |] eqn:E3; [| congruence].
  destruct (digits1 r3) as [[d r4] |] eqn:E4; [| congruence].
  intros <- _.
  destruct (digits_dot_split _ _ _ E1) as (d1 & -> & D1 & N1 & S1).
  destruct (digits_dot_split _ _ _ E2) as (d2 & -> & D2 & N2 & S2).
  destruct (digits_dot_split _ _ _ E3) as (d3 & -> & D3 & N3 & S3).
  unfold digits1 in E4. destruct (digits_split r3) as (S4 & D4 & R4).
  destruct (digits r3) as [d4 t]. cbn [fst snd] in *.
  assert (d4 <> "" /\ d = d4 /\ r4 = t) as (N4 & -> & ->).
  { destruct d4; [discriminate |]. inversion E4. repeat split. discriminate. }
  exists d1, d2, d3, d4, t.
  split; [rewrite !append_assoc_s; reflexivity |].
  split; [rewrite S1, S2, S3, S4, !append_assoc_s; reflexivity |].
  repeat split; assumption.
Qed.

Lemma matchip_finds_dotted_quad_witness :
  matchip_FindString "10.0.300.1/8" = "10.0.300.1" /\ "10.0.300.1" <> ""
  /\ exists rest, "10.0.300.1/8" = "10.0.300.1" +:+ rest.
Proof.
  assert (Hne : "10.0.300.1" <> "") by discriminate.
  split; [reflexivity |]. split; [exact Hne |].
  destruct (matchip_finds_dotted_quad "10.0.300.1/8" "10.0.300.1" eq_refl Hne)
    as (d1 & d2 & d3 & d4 & rest & _ & Hs & _).
  exists rest. exact Hs.
Defined.

(** X20.  Conversely, every address that starts with four runs of digits
    with dots between them is matched up to the end of the fourth run,
    whatever follows it. *)
Theorem matchip_matches_dotted_quad (d1 d2 d3 d4 rest : string) :
  all_digits d1 = true -> d1 <> "" -> all_digits d2 = true -> d2 <> "" ->
  all_digits d3 = true -> d3 <> "" -> all_digits d4 = true -> d4 <> "" ->
  starts_with_digit rest = false ->
  matchip_FindString
    (d1 +:+ "." +:+ d2 +:+ "." +:+ d3 +:+ "." +:+ d4 +:+ rest)
  = d1 +:+ "." +:+ d2 +:+ "." +:+ d3 +:+ "." +:+ d4.
Proof.
  intros D1 N1 D2 N2 D3 N3 D4 N4 R.
  unfold matchip_FindString.
  rewrite (digits_dot_app d1 _ D1 N1), (digits_dot_app d2 _ D2 N2),
    (digits_dot_app d3 _ D3 N3).
  unfold digits1. rewrite (digits_app d4 rest D4 R).
  destruct d4 as [| a d4]; [congruence |].
  rewrite !append_assoc_s. reflexivity.
Qed.

Lemma matchip_matches_dotted_quad_witness :
  all_digits "192" = true /\ "192" <> "" /\ all_digits "168" = true
  /\ all_digits "1" = true /\ all_digits "10" = true
  /\ starts_with_digit "/24" = false
  /\ matchip_FindString ("192" +:+ "." +:+ "168" +:+ "." +:+ "1" +:+ "."
                         +:+ "10" +:+ "/24")
     = "192" +:+ "." +:+ "168" +:+ "." +:+ "1" +:+ "." +:+ "10".
Proof.
  assert (N1 : "192" <> "") by discriminate.
  assert (N2 : "168" <> "") by discriminate.
  assert (N3 : "1" <> "") by discriminate.
  assert (N4 : "10" <> "") by discriminate.
  split; [reflexivity |]. split; [exact N1 |].
  do 4 (split; [reflexivity |]).
  apply (matchip_matches_dotted_quad "192" "168" "1" "10" "/24"
           eq_refl N1 eq_refl N2 eq_refl N3 eq_refl N4 eq_refl).
Defined.

Lemma code_chr (x : Z) : (0 <= x < 256)%Z -> code (chr x) = x.
Proof.
  intros H. unfold code, chr. rewrite Z.mod_small by assumption.
  rewrite N_ascii_embedding by lia. lia.
Qed.

Lemma hexdigit_code (n : Z) :
  (0 <= n < 16)%Z ->
  code (hexdigit n) = (if Z.ltb n 10 then 0x30 + n else 0x57 + n)%Z.
Proof.
  intros H. unfold hexdigit.
  destruct (Z.ltb_spec n 10); rewrite code_chr by lia; lia.
Qed.

Lemma hexdigit_inj (n m : Z) :
  (0 <= n < 16)%Z -> (0 <= m < 16)%Z -> hexdigit n = hexdigit m -> n = m.
Proof.
  intros Hn Hm H. apply (f_equal code) in H.
  rewrite !hexdigit_code in H by assumption.
  destruct (Z.ltb_spec n 10); destruct (Z.ltb_spec m 10); lia.
Qed.

Lemma hexdigit_not_colon (n : Z) :
  (0 <= n < 16)%Z -> Ascii.eqb (hexdigit n) ":" = false.
Proof.
  intros H. apply Ascii.eqb_neq. intros E. apply (f_equal code) in E.
  rewrite hexdigit_code in E by assumption.
  change (code ":") with 58%Z in E.
  destruct (Z.ltb_spec n 10); lia.
Qed.

Lemma nibbles (b : byte) :
  (0 <= byte_val b / 16 < 16)%Z /\ (0 <= byte_val b mod 16 < 16)%Z.
Proof. pose proof (byte_val_range b). split; Z.div_mod_to_equations; lia. Qed.

Lemma byte_val_inj (b b' : byte) : byte_val b = byte_val b' -> b = b'.
Proof.
  unfold byte_val. intros H. apply N2Z.inj in H.
  pose proof (Byte.of_to_N b) as E. rewrite H, Byte.of_to_N in E.
  congruence.
Qed.

Lemma hex_byte_inj (b b' : byte) : hex_byte b = hex_byte b' -> b = b'.
Proof.
  unfold hex_byte. intros H. inversion H as [[Hhi Hlo]].
  destruct (nibbles b) as [R1 R2]. destruct (nibbles b') as [R1' R2'].
  apply hexdigit_inj in Hhi, Hlo; try assumption.
  apply byte_val_inj.
  rewrite (Z.div_mod (byte_val b) 16), (Z.div_mod (byte_val b') 16) by lia.
  rewrite Hhi, Hlo. reflexivity.
Qed.

Lemma drop_colons_hex_byte (b : byte) (t : string) :
  drop_colons (hex_byte b +:+ t) = hex_byte b +:+ drop_colons t.
Proof.
  unfold hex_byte. destruct (nibbles b) as [R1 R2].
  change (String ?x (String ?y EmptyString) +:+ ?u)
    with (String x (String y u)).
  cbn [drop_colons].
  rewrite (hexdigit_not_colon _ R1), (hexdigit_not_colon _ R2). reflexivity.
Qed.

Lemma drop_colons_fingerprint (sum : list byte) :
  drop_colons (fingerprint_of_sum sum) = hex_EncodeToString sum.
Proof.
  unfold fingerprint_of_sum.
  induction sum as [| b sum IH]; [reflexivity |].
  destruct sum as [| b' sum].
  - cbn [map Join hex_EncodeToString]. unfold hex_byte.
    destruct (nibbles b) as [R1 R2]. cbn [drop_colons].
    rewrite (hexdigit_not_colon _ R1), (hexdigit_not_colon _ R2). reflexivity.
  - cbn [map] in *.
    change (Join (hex_byte b :: hex_byte b' :: map hex_byte sum) ":")
      with (hex_byte b
            +:+ String ":" (Join (hex_byte b' :: map hex_byte sum) ":")).
    change (hex_EncodeToString (b :: b' :: sum))
      with (hex_byte b +:+ hex_EncodeToString (b' :: sum)).
    rewrite drop_colons_hex_byte. f_equal.
    cbn [drop_colons Ascii.eqb Bool.eqb]. exact IH.
Qed.

(** X21.  The fingerprint that [fingerprintKey] prints and the [hash] that
    the public-key callback of [handle] stores are the same digits: taking
    the colons out of the first gives the second. *)
Theorem fingerprint_without_colons (md5_Sum : list byte -> list byte)
    (k : list byte) :
  drop_colons (fingerprintKey md5_Sum k) = callback_hash md5_Sum k.
Proof. apply drop_colons_fingerprint. Qed.

Lemma hex_EncodeToString_inj (a b : list byte) :
  hex_EncodeToString a = hex_EncodeToString b -> a = b.
Proof.
  revert b. induction a as [| x a IH]; intros [| y b] H; try reflexivity;
    try discriminate H.
  cbn [hex_EncodeToString] in H. unfold hex_byte in H.
  cbn [String.append] in H. inversion H as [[Hhi Hlo Ht]].
  f_equal; [| apply IH; assumption].
  apply hex_byte_inj. unfold hex_byte. rewrite Hhi, Hlo. reflexivity.
Qed.

(** X22.  Two digests print as the same fingerprint only when they are the
    same digest, in the colon form of [fingerprintKey] and in the plain form
    of the callback alike. *)
Theorem fingerprints_injective (a b : list byte) :
  (fingerprint_of_sum a = fingerprint_of_sum b -> a = b)
  /\ (hex_EncodeToString a = hex_EncodeToString b -> a = b).
Proof.
  split; [| apply hex_EncodeToString_inj].
  intros H. apply hex_EncodeToString_inj.
  rewrite <- !drop_colons_fingerprint. rewrite H. reflexivity.
Qed.

Lemma length_hex_EncodeToString (bs : list byte) :
  String.length (hex_EncodeToString bs) = 2 * List.length bs.
Proof.
  induction bs as [| b bs IH]; [reflexivity |].
  cbn [hex_EncodeToString List.length]. unfold hex_byte.
  change (String ?x (String ?y EmptyString) +:+ ?u)
    with (String x (String y u)).
  change (String.length (String ?x (String ?y ?u)))
    with (S (S (String.length u))).
  rewrite IH. lia.
Qed.

(** X25.  With MD5 digests of 16 bytes, a session registered after a
    handshake with a public key has the 32 hexadecimal digits of the key's
    digest as fingerprint, never the peer's address; a session registered
    without a key has the host part of the peer's address, or nothing when
    the address does not split. *)
Theorem session_fingerprint (md5_Sum : list byte -> list byte)
    (SplitHostPort : string -> option string) (s : Server) (tc : TCPConn)
    (p : Player) :
  (forall k, List.length (md5_Sum k) = 16) ->
  In p (registered (all_events
          (handle (callback_hash md5_Sum) SplitHostPort s tc))) ->
  (forall k, handshake tc = Some (SSHName p, Some k) ->
             Fingerprint p = callback_hash md5_Sum k
             /\ String.length (Fingerprint p) = 32
             /\ drop_colons (fingerprintKey md5_Sum k) = Fingerprint p)
  /\ (handshake tc = Some (SSHName p, None) ->
      Fingerprint p = match SplitHostPort (RemoteAddr tc) with
                      | Some ip => ip
                      | None => EmptyString
                      end).
Proof.
  intros Hlen Hin.
  destruct (handle_fingerprint _ _ s tc p Hin) as (key & Hh & Hf).
  split.
  - intros k Hk. rewrite Hk in Hh. inversion Hh. subst key.
    assert (L : String.length (callback_hash md5_Sum k) = 32).
    { unfold callback_hash. rewrite length_hex_EncodeToString, Hlen.
      reflexivity. }
    assert (F : Fingerprint p = callback_hash md5_Sum k).
    { rewrite Hf. unfold fallback_hash, key_hash.
      destruct (String.eqb_spec (callback_hash md5_Sum k) "") as [E | _];
        [| reflexivity].
      rewrite E in L. discriminate L. }
    rewrite F. split; [reflexivity |]. split; [exact L |].
    apply drop_colons_fingerprint.
  - intros Hn. rewrite Hn in Hh. inversion Hh. subst key.
    rewrite Hf. reflexivity.
Qed.

(** * UTF-8 there and back *)

Lemma lor_add (x y n : Z) :
  (0 <= n)%Z -> (0 <= y < 2 ^ n)%Z -> (x mod 2 ^ n = 0)%Z ->
  Z.lor x y = (x + y)%Z.
Proof.
  intros Hn Hy Hx.
  assert (E : x = Z.shiftl (x / 2 ^ n) n).
  { rewrite Z.shiftl_mul_pow2 by assumption.
    pose proof (Z.div_mod x (2 ^ n)) as D. lia. }
  rewrite E at 1. rewrite Z.lor_comm, lor_shiftl_add by assumption.
  pose proof (Z.div_mod x (2 ^ n)) as D. lia.
Qed.

Ltac settle_tests :=
  repeat match goal with
  | |- context [in_range ?a ?b ?x] =>
      first [ rewrite (proj2 (in_range_spec a b x)) by lia
            | rewrite (proj2 (in_range_false a b x)) by lia ]
  | |- context [Z.eqb ?x ?c] =>
      first [ rewrite (proj2 (Z.eqb_eq x c)) by lia
            | rewrite (proj2 (Z.eqb_neq x c)) by lia ]
  | |- context [Z.ltb ?x ?c] =>
      first [ rewrite (proj2 (Z.ltb_lt x c)) by lia
            | rewrite (proj2 (Z.ltb_ge x c)) by lia ]
  end; cbn [negb andb orb].

Lemma decode1 (a0 : ascii) (t : string) :
  (code a0 < 0x80)%Z -> DecodeRuneInString (String a0 t) = (code a0, 1).
Proof. apply decode_ascii. Qed.

Lemma decode2 (a0 a1 : ascii) (t : string) :
  (0xC2 <= code a0 <= 0xDF)%Z -> (0x80 <= code a1 <= 0xBF)%Z ->
  DecodeRuneInString (String a0 (String a1 t))
  = (((code a0 - 192) * 64 + (code a1 - 128))%Z, 2).
Proof.
  intros H0 H1. unfold DecodeRuneInString, first_info, cont.
  settle_tests. cbn [Nat.leb]. f_equal.
  masks.
  rewrite (lor_add _ _ 6) by (Z.div_mod_to_equations; lia).
  Z.div_mod_to_equations; lia.
Qed.

Lemma decode3 (a0 a1 a2 : ascii) (t : string) :
  ((code a0 = 0xE0 /\ 0xA0 <= code a1 <= 0xBF)
   \/ (0xE1 <= code a0 <= 0xEC /\ 0x80 <= code a1 <= 0xBF)
   \/ (code a0 = 0xED /\ 0x80 <= code a1 <= 0x9F)
   \/ (0xEE <= code a0 <= 0xEF /\ 0x80 <= code a1 <= 0xBF))%Z ->
  (0x80 <= code a2 <= 0xBF)%Z ->
  DecodeRuneInString (String a0 (String a1 (String a2 t)))
  = (((code a0 - 224) * 4096 + (code a1 - 128) * 64 + (code a2 - 128))%Z, 3).
Proof.
  intros H01 H2. unfold DecodeRuneInString, first_info, cont.
  destruct H01 as [[H0 H1] | [[H0 H1] | [[H0 H1] | [H0 H1]]]];
    settle_tests; cbn [Nat.leb]; f_equal; masks;
    match goal with
    | |- Z.lor (Z.lor ?a ?b) ?c = _ =>
        rewrite (lor_add a b 12) by (Z.div_mod_to_equations; lia);
        rewrite (lor_add (a + b) c 6) by (Z.div_mod_to_equations; lia)
    end; Z.div_mod_to_equations; lia.
Qed.

Lemma decode4 (a0 a1 a2 a3 : ascii) (t : string) :
  ((code a0 = 0xF0 /\ 0x90 <= code a1 <= 0xBF)
   \/ (0xF1 <= code a0 <= 0xF3 /\ 0x80 <= code a1 <= 0xBF)
   \/ (code a0 = 0xF4 /\ 0x80 <= code a1 <= 0x8F))%Z ->
  (0x80 <= code a2 <= 0xBF)%Z -> (0x80 <= code a3 <= 0xBF)%Z ->
  DecodeRuneInString (String a0 (String a1 (String a2 (String a3 t))))
  = (((code a0 - 240) * 262144 + (code a1 - 128) * 4096
      + (code a2 - 128) * 64 + (code a3 - 128))%Z, 4).
Proof.
  intros H01 H2 H3. unfold DecodeRuneInString, first_info, cont.
  destruct H01 as [[H0 H1] | [[H0 H1] | [H0 H1]]];
    settle_tests; cbn [Nat.leb]; f_equal; masks;
    match goal with
    | |- Z.lor (Z.lor (Z.lor ?a ?b) ?c) ?d = _ =>
        rewrite (lor_add a b 18) by (Z.div_mod_to_equations; lia);
        rewrite (lor_add (a + b) c 12) by (Z.div_mod_to_equations; lia);
        rewrite (lor_add (a + b + c) d 6) by (Z.div_mod_to_equations; lia)
    end; Z.div_mod_to_equations; lia.
Qed.

Lemma code_or (K e n : Z) :
  (0 <= n)%Z -> (0 <= e < 2 ^ n)%Z -> (K mod 2 ^ n = 0)%Z ->
  (0 <= K)%Z -> (K + e < 256)%Z ->
  code (chr (Z.lor K e)) = (K + e)%Z.
Proof.
  intros Hn He HK H0 H256. rewrite (lor_add K e n) by assumption.
  apply code_chr. lia.
Qed.

Ltac to_arith :=
  rewrite ?Z.shiftr_div_pow2 by lia; masks;
  change (2 ^ 12)%Z with 4096%Z in *; change (2 ^ 18)%Z with 262144%Z in *.

(** Writing a rune as UTF-8 and decoding it gives the rune back, with the
    number of bytes written as its width. *)
Lemma decode_encoderune (r : Z) (t : string) :
  (0 <= r <= MaxRune)%Z -> ~ (0xD800 <= r <= 0xDFFF)%Z ->
  DecodeRuneInString (encoderune r +:+ t)
  = (r, String.length (encoderune r)).
Proof.
  unfold encoderune, enc3, MaxRune. intros Hr Hs.
  destruct (Z.le_gt_cases r 0x7F) as [H1 | H1].
  { settle_tests.
    change (String ?x EmptyString +:+ t) with (String x t).
    rewrite decode1; rewrite code_chr by lia; [reflexivity | lia]. }
  destruct (Z.le_gt_cases r 0x7FF) as [H2 | H2].
  { settle_tests.
    change (String ?x (String ?y EmptyString) +:+ t)
      with (String x (String y t)).
    to_arith.
    assert (C0 : code (chr (Z.lor 192 (r / 64))) = (192 + r / 64)%Z)
      by (apply (code_or _ _ 6); Z.div_mod_to_equations; lia).
    assert (C1 : code (chr (Z.lor 128 (r mod 64))) = (128 + r mod 64)%Z)
      by (apply (code_or _ _ 6); Z.div_mod_to_equations; lia).
    rewrite decode2; rewrite ?C0, ?C1;
      [f_equal | |]; Z.div_mod_to_equations; lia. }
  destruct (Z.le_gt_cases r 0xFFFF) as [H3 | H3].
  { settle_tests.
    change (String ?x (String ?y (String ?z EmptyString)) +:+ t)
      with (String x (String y (String z t))).
    to_arith.
    assert (C0 : code (chr (Z.lor 224 (r / 4096))) = (224 + r / 4096)%Z)
      by (apply (code_or _ _ 5); Z.div_mod_to_equations; lia).
    assert (C1 : code (chr (Z.lor 128 ((r / 64) mod 64)))
                 = (128 + (r / 64) mod 64)%Z)
      by (apply (code_or _ _ 6); Z.div_mod_to_equations; lia).
    assert (C2 : code (chr (Z.lor 128 (r mod 64))) = (128 + r mod 64)%Z)
      by (apply (code_or _ _ 6); Z.div_mod_to_equations; lia).
    rewrite decode3; rewrite ?C0, ?C1, ?C2;
      [f_equal | |]; Z.div_mod_to_equations; lia. }
  settle_tests.
  change (String ?x (String ?y (String ?z (String ?u EmptyString))) +:+ t)
    with (String x (String y (String z (String u t)))).
  to_arith.
  assert (C0 : code (chr (Z.lor 240 (r / 262144))) = (240 + r / 262144)%Z)
    by (apply (code_or _ _ 4); Z.div_mod_to_equations; lia).
  assert (C1 : code (chr (Z.lor 128 ((r / 4096) mod 64)))
               = (128 + (r / 4096) mod 64)%Z)
    by (apply (code_or _ _ 6); Z.div_mod_to_equations; lia).
  assert (C2 : code (chr (Z.lor 128 ((r / 64) mod 64)))
               = (128 + (r / 64) mod 64)%Z)
    by (apply (code_or _ _ 6); Z.div_mod_to_equations; lia).
  assert (C3 : code (chr (Z.lor 128 (r mod 64))) = (128 + r mod 64)%Z)
    by (apply (code_or _ _ 6); Z.div_mod_to_equations; lia).
  rewrite decode4; rewrite ?C0, ?C1, ?C2, ?C3;
    [f_equal | | |]; Z.div_mod_to_equations; lia.
Qed.

Lemma runes_from_skip (u t : string) :
  runes_from (String.length u) (u +:+ t) = runes_from 0 t.
Proof.
  induction u as [| a u IH]; [reflexivity |].
  change (String a u +:+ t) with (String a (u +:+ t)).
  cbn [String.length runes_from]. exact IH.
Qed.

Lemma encoderune_cons (r : Z) :
  exists a u, encoderune r = String a u.
Proof.
  unfold encoderune, enc3.
  repeat match goal with
  | |- context [if ?b then _ else _] => destruct b
  end; eauto.
Qed.

(** X23.  A slice of Unicode scalar values written as a string and read
    back as runes is the same slice: [[]rune(string(rs))] is [rs], and the
    string has as many runes as the slice has elements. *)
Theorem runes_string_of_runes (rs : list Z) :
  Forall (fun r => (0 <= r <= MaxRune)%Z /\ ~ (0xD800 <= r <= 0xDFFF)%Z) rs ->
  runes (string_of_runes rs) = rs
  /\ RuneCountInString (string_of_runes rs) = List.length rs.
Proof.
  intros H. assert (E : runes (string_of_runes rs) = rs).
  { unfold runes. induction H as [| r rs [Hr Hs] _ IH]; [reflexivity |].
    cbn [string_of_runes].
    pose proof (decode_encoderune r (string_of_runes rs) Hr Hs) as D.
    destruct (encoderune_cons r) as (a & u & Ea). rewrite Ea in *.
    change (String a u +:+ ?t) with (String a (u +:+ t)) in *.
    cbn [runes_from]. rewrite D. cbn [String.length Nat.pred].
    rewrite runes_from_skip, IH. reflexivity. }
  split; [exact E |]. unfold RuneCountInString. rewrite E. reflexivity.
Qed.

(** * The properties on sample connections *)

Lemma no_accept_no_change_witness :
  let s := sample_server (MkChan [7%Z] false) in
  let r := handle no_md5 no_split s (sample_conn [sample_forward]) in
  accepted (all_events r) = [] /\ server r = s.
Proof.
  intros s r. split; [reflexivity |].
  apply (no_accept_no_change no_md5 no_split s (sample_conn [sample_forward])).
  reflexivity.
Defined.

Lemma registered_session_witness :
  let s := sample_server (MkChan [7%Z; 3%Z] false) in
  let r := handle no_md5 no_split s (sample_conn [sample_session]) in
  let p := NewPlayer 7%Z "Bob!!" "Bob" "" sample_session in
  In p (registered (all_events r))
  /\ pid p <> 0%Z
  /\ pending_of (idPool s) = pid p :: pending_of (idPool (server r)).
Proof.
  intros s r p.
  assert (Hin : In p (registered (all_events r))) by (left; reflexivity).
  split; [exact Hin |].
  destruct (registered_session no_md5 no_split s (sample_conn [sample_session])
              p Hin) as (_ & Hid & Hp & _).
  split; assumption.
Defined.

Lemma registry_update_witness :
  let s := sample_server (MkChan [7%Z] false) in
  let r := handle no_md5 no_split s (sample_conn [sample_session]) in
  let p := NewPlayer 7%Z "Bob!!" "Bob" "" sample_session in
  In p (registered (all_events r))
  /\ onlinePlayers (server r) !! Name p = Some p.
Proof.
  intros s r p.
  assert (Hin : In p (registered (all_events r))) by (left; reflexivity).
  split; [exact Hin |].
  apply (proj2 (proj2 (registry_update no_md5 no_split s
                         (sample_conn [sample_session]))) p Hin).
Defined.

Lemma exhausted_pool_refuses_witness :
  let s := sample_server (MkChan [] true) in
  let tcs := [sample_conn [sample_session]; sample_conn [sample_forward];
              sample_conn [sample_session]] in
  pending_of (idPool s) = [] /\ handle_all no_md5 no_split s tcs = s.
Proof.
  intros s tcs. split; [reflexivity |].
  apply (exhausted_pool_refuses no_md5 no_split s tcs eq_refl).
Defined.

Lemma identities_never_shared_witness :
  let s0 := sample_server (MkChan [7%Z; 3%Z] false) in
  let tcs := [sample_conn [sample_session]; sample_conn [sample_session]] in
  let s := handle_all no_md5 no_split s0 tcs in
  List.NoDup (pending_of (idPool s0)) /\ onlinePlayers s0 = ∅
  /\ forall k p, onlinePlayers s !! k = Some p -> pid p <> 0%Z.
Proof.
  intros s0 tcs s.
  assert (Hnd : List.NoDup (pending_of (idPool s0))).
  { apply List.NoDup_cons; [intros [H | []]; discriminate H |].
    apply List.NoDup_cons; [intros [] | apply List.NoDup_nil]. }
  split; [exact Hnd |]. split; [reflexivity |].
  intros k p Hk.
  apply (proj1 (identities_never_shared no_md5 no_split s0 tcs Hnd eq_refl)
           k p Hk).
Defined.

Lemma fingerprints_injective_witness :
  fingerprint_of_sum [x0a; xff] = fingerprint_of_sum [x0a; xff]
  /\ [x0a; xff] = [x0a; xff].
Proof.
  split; [reflexivity |].
  apply (proj1 (fingerprints_injective [x0a; xff] [x0a; xff])). reflexivity.
Defined.

Lemma runes_string_of_runes_witness :
  let rs := [0x42; 0xE9; 0x20AC; 0x1F600]%Z in
  Forall (fun r => (0 <= r <= MaxRune)%Z /\ ~ (0xD800 <= r <= 0xDFFF)%Z) rs
  /\ runes (string_of_runes rs) = rs.
Proof.
  intros rs.
  assert (H : Forall (fun r => (0 <= r <= MaxRune)%Z
                               /\ ~ (0xD800 <= r <= 0xDFFF)%Z) rs).
  { unfold rs, MaxRune. repeat (constructor; [lia |]). constructor. }
  split; [exact H |]. apply (runes_string_of_runes rs H).
Defined.

Lemma session_fingerprint_witness :
  let md5 := fun _ : list byte => repeat x00 16 in
  let split := fun _ : string => Some "203.0.113.5" in
  let s := sample_server (MkChan [7%Z] false) in
  let tc := sample_conn [sample_session] in
  let p := NewPlayer 7%Z "Bob!!" "Bob" "203.0.113.5" sample_session in
  (forall k, List.length (md5 k) = 16)
  /\ In p (registered (all_events (handle (callback_hash md5) split s tc)))
  /\ handshake tc = Some (SSHName p, None)
  /\ Fingerprint p = "203.0.113.5".
Proof.
  intros md5 split s tc p.
  assert (Hlen : forall k, List.length (md5 k) = 16) by (intros k; reflexivity).
  assert (Hin : In p (registered (all_events
                        (handle (callback_hash md5) split s tc))))
    by (left; reflexivity).
  split; [exact Hlen |]. split; [exact Hin |]. split; [reflexivity |].
  apply (proj2 (session_fingerprint md5 split s tc p Hlen Hin) eq_refl).
Defined.

Lemma nil_queue_never_publishes_witness :
  let s := sample_server (MkChan [7%Z; 3%Z] false) in
  let tcs := [sample_conn [sample_session]] in
  let s' := handle_all no_md5 no_split s tcs in
  let r := handle no_md5 no_split s' (sample_conn [sample_session]) in
  newPlayers s = NilChan
  /\ newPlayers s' = NilChan
  /\ published (all_events r) = [].
Proof.
  intros s tcs s' r. split; [reflexivity |].
  destruct (nil_queue_never_publishes no_md5 no_split s tcs
              (sample_conn [sample_session]) eq_refl) as (Hq & Hp & _).
  split; assumption.
Defined.
